(** * qudi-coldatoms-imaging: remote module sharing and the task engine

    A shallow embedding of [core/remote.py] and [logic/generic_logic.py].
    Python objects that are shared between several holders (the
    [DictTableModel] behind [sharedModules], the class attribute
    [GenericLogic._tasks]) live in an explicit store and are reached through
    addresses; Python exceptions are an explicit outcome of every call. *)

From Stdlib Require Import ZArith String Ascii List Lia.
From stdpp Require Import gmap strings list fin_maps pretty.

Local Open Scope string_scope.
Local Open Scope Z_scope.

(** ** Exceptions and the state-and-exception monad *)

Inductive exn : Type :=
| AttributeError (cls attr : string)  (* 'cls' object has no attribute 'attr' *)
| NameError (name : string)           (* name 'name' is not defined *)
| TypeError (msg : string)
| ValueError (msg : string)
| ReferenceError                      (* an address without an object behind it *)
| ConnectionRefusedError
| FysomError (msg : string)
| RecursionError                      (* maximum recursion depth exceeded *)
| WorkError (text : string).          (* raised by a task's work callable *)

(** [str(e)], as ['{}'.format(e)] renders an exception. *)
Definition exn_text (e : exn) : string :=
  match e with
  | AttributeError cls attr =>
      "'" +:+ cls +:+ "' object has no attribute '" +:+ attr +:+ "'"
  | NameError n => "name '" +:+ n +:+ "' is not defined"
  | TypeError m => m
  | ValueError m => m
  | ReferenceError => "weakly-referenced object no longer exists"
  | ConnectionRefusedError => "[Errno 111] Connection refused"
  | FysomError m => m
  | RecursionError => "maximum recursion depth exceeded"
  | WorkError t => t
  end.

Inductive outcome (S A : Type) : Type :=
| Returned (a : A) (s : S)
| Raised (e : exn) (s : S).
Arguments Returned {S A} a s.
Arguments Raised {S A} e s.

Definition py (S A : Type) : Type := S -> outcome S A.

Definition ret {S A} (a : A) : py S A := fun s => Returned a s.

Definition bind {S A B} (m : py S A) (k : A -> py S B) : py S B :=
  fun s => match m s with
           | Returned a s' => k a s'
           | Raised e s' => Raised e s'
           end.

Definition raise {S A} (e : exn) : py S A := fun s => Raised e s.

(** [try: body; except Exception as e: handler e].  Every [exn] above is an
    [Exception], so the handler sees all of them; the state reached when the
    exception was raised is kept. *)
Definition try_except {S A} (body : py S A) (handler : exn -> py S A) : py S A :=
  fun s => match body s with
           | Returned a s' => Returned a s'
           | Raised e s' => handler e s'
           end.

Definition gets {S A} (f : S -> A) : py S A := fun s => Returned (f s) s.
Definition modify {S} (f : S -> S) : py S unit := fun s => Returned tt (f s).

(** A result computed outside the monad, raised if it is an exception. *)
Definition lift_sum {S A} (r : exn + A) : py S A :=
  match r with inl e => raise e | inr a => ret a end.

Declare Scope py_scope.
Delimit Scope py_scope with py.
Notation "'let*' x := m 'in' k" := (bind m (fun x => k))
  (at level 10, x name, m at level 100, k at level 200,
   format "'[v' 'let*'  x  :=  m  'in' '/' k ']'") : py_scope.
Notation "'exec' m 'in' k" := (bind m (fun _ => k))
  (at level 10, m at level 100, k at level 200,
   format "'[v' 'exec'  m  'in' '/' k ']'") : py_scope.
Local Open Scope py_scope.

Definition final_state {S A} (o : outcome S A) : S :=
  match o with Returned _ s => s | Raised _ s => s end.

Definition returned {S A} (o : outcome S A) : option A :=
  match o with Returned a _ => Some a | Raised _ _ => None end.

Definition raised {S A} (o : outcome S A) : option exn :=
  match o with Returned _ _ => None | Raised e _ => Some e end.

(** ** The logger ([logMsg(message, msgType=...)]) *)

Inductive msgType : Type := status | warning | error.

Record log_entry : Type := LogEntry { entry_type : msgType; entry_text : string }.

(** ** Table models *)

Module Models.

(** Modelled from the spec: class [DictTableModel] of core/util/models.py
    is not among the sources.  Its [storage] is the name-to-object mapping
    (section 2, ObjectRegistry and TaskRegistry); [headers] is the list
    that [RemoteObjectManager.__init__] writes at index 0. *)
Record DictTableModel (V : Type) : Type := mkDict {
  dict_headers : list string;
  storage : gmap string V;
}.
Arguments mkDict {V} _ _.
Arguments dict_headers {V} _.
Arguments storage {V} _.

Definition DictTableModel_new {V} : DictTableModel V := mkDict ["Name"] ∅.

(** Modelled from the spec: [DictTableModel.add], the one method that
    both [shareModule] and [registerTask] call.  Section 4.2 words it: "if
    a task with that name already exists, the registration is rejected ...
    rather than overwriting"; [registerTask] tells the two cases apart by
    the returned value, which is [None] exactly for a rejected key, and its
    message ("a task is already registered with this name") names the
    case.  [shareModule] drops the returned value. *)
Definition add {V} (key : string) (data : V)
    (d : DictTableModel V) : option string * DictTableModel V :=
  match storage d !! key with
  | Some _ => (None, d)
  | None => (Some key, mkDict (dict_headers d) (<[key := data]> (storage d)))
  end.

(** Modelled from the spec: [DictTableModel.pop] (section 4.1, [unshare]):
    "removes the entry for name if present"; on an absent name it "does not
    raise".  It returns the removed object, or [None]. *)
Definition pop {V} (key : string) (d : DictTableModel V)
    : option V * DictTableModel V :=
  (storage d !! key, mkDict (dict_headers d) (delete key (storage d))).

(** Modelled from the spec: class [ListTableModel] of core/util/models.py
    is not among the sources; [append] adds at the end of the observable
    "remote modules" listing (section 4.1). *)
Record ListTableModel (V : Type) : Type := mkList {
  list_headers : list string;
  list_storage : list V;
}.
Arguments mkList {V} _ _.
Arguments list_headers {V} _.
Arguments list_storage {V} _.

Definition ListTableModel_new {V} : ListTableModel V := mkList ["Name"] [].

Definition append {V} (data : V) (l : ListTableModel V) : ListTableModel V :=
  mkList (list_headers l) (list_storage l ++ [data]).

End Models.

(** ** urllib.parse, as far as [getRemoteModuleUrl] uses it

    The algorithm of [urlsplit], [urlparse] and the [hostname] and [port]
    properties of the interpreter the repository was written for (CPython
    3.4), on ASCII text.  [int10] reads plain decimal numerals only: the
    sign, blanks and underscores that [int] would also accept do not occur
    in the URLs considered below. *)

Module Url.

Definition is_digit (c : ascii) : bool :=
  let n := nat_of_ascii c in ((48 <=? n) && (n <=? 57))%nat.
Definition is_upper (c : ascii) : bool :=
  let n := nat_of_ascii c in ((65 <=? n) && (n <=? 90))%nat.
Definition is_lower (c : ascii) : bool :=
  let n := nat_of_ascii c in ((97 <=? n) && (n <=? 122))%nat.

(** [scheme_chars]: letters, digits and "+-." *)
Definition is_scheme_char (c : ascii) : bool :=
  is_lower c || is_upper c || is_digit c
  || Ascii.eqb c "+" || Ascii.eqb c "-" || Ascii.eqb c ".".

Fixpoint forall_chars (P : ascii -> bool) (s : string) : bool :=
  match s with
  | EmptyString => true
  | String c r => P c && forall_chars P r
  end.

Definition contains (c : ascii) (s : string) : bool :=
  negb (forall_chars (fun a => negb (Ascii.eqb a c)) s).

(** [s.lower()] *)
Definition lower_char (c : ascii) : ascii :=
  if is_upper c then ascii_of_nat (nat_of_ascii c + 32) else c.
Fixpoint lower (s : string) : string :=
  match s with
  | EmptyString => EmptyString
  | String c r => String (lower_char c) (lower r)
  end.

(** [s.replace(c, '')] for a one-character [c] *)
Fixpoint remove_char (c : ascii) (s : string) : string :=
  match s with
  | EmptyString => EmptyString
  | String a r => if Ascii.eqb a c then remove_char c r
                  else String a (remove_char c r)
  end.

(** [s.partition(c)]: the text before the first [c], whether [c] was
    found, the text after it. *)
Fixpoint partition (c : ascii) (s : string) : string * bool * string :=
  match s with
  | EmptyString => (EmptyString, false, EmptyString)
  | String a r =>
      if Ascii.eqb a c then (EmptyString, true, r)
      else let '(b, f, t) := partition c r in (String a b, f, t)
  end.

(** The text before the last [c] and the text after it, if [c] occurs. *)
Fixpoint split_last (c : ascii) (s : string) : option (string * string) :=
  match s with
  | EmptyString => None
  | String a r =>
      match split_last c r with
      | Some (b, t) => Some (String a b, t)
      | None => if Ascii.eqb a c then Some (EmptyString, r) else None
      end
  end.

(** [s.rpartition(c)] *)
Definition rpartition (c : ascii) (s : string) : string * bool * string :=
  match split_last c s with
  | Some (b, t) => (b, true, t)
  | None => (EmptyString, false, s)
  end.

(** The text before the first character satisfying [P], and the text from
    that character on. *)
Fixpoint break (P : ascii -> bool) (s : string) : string * string :=
  match s with
  | EmptyString => (EmptyString, EmptyString)
  | String a r =>
      if P a then (EmptyString, s)
      else let '(b, t) := break P r in (String a b, t)
  end.

(** [int(s, 10)] on a plain decimal numeral *)
Fixpoint digits_value (acc : Z) (s : string) : Z :=
  match s with
  | EmptyString => acc
  | String c r => digits_value (10 * acc + (Z.of_nat (nat_of_ascii c) - 48)) r
  end.
Definition int10 (s : string) : option Z :=
  match s with
  | EmptyString => None
  | _ => if forall_chars is_digit s then Some (digits_value 0 s) else None
  end.

Record ParseResult : Type := mkParseResult {
  scheme : string;
  netloc : string;
  path : string;
  params : string;
  query : string;
  fragment : string;
}.

Definition is_netloc_end (c : ascii) : bool :=
  Ascii.eqb c "/" || Ascii.eqb c "?" || Ascii.eqb c "#".

(** [_splitnetloc(url, 2)], after the test [url[:2] == '//'] *)
Definition split_netloc (url : string) : option (string * string) :=
  match url with
  | String "/" (String "/" r) => Some (break is_netloc_end r)
  | _ => None
  end.

(** [urlsplit(url)]: (scheme, netloc, path, query, fragment) *)
Definition urlsplit (url : string)
    : exn + (string * string * string * string * string) :=
  let '(sch, url1) :=
    match partition ":" url with
    | (String c b as before, true, rest) =>
        if forall_chars is_scheme_char before
        then match rest with
             | EmptyString => (lower before, rest)
             | _ => if forall_chars is_digit rest then (EmptyString, url)
                    else (lower before, rest)
             end
        else (EmptyString, url)
    | _ => (EmptyString, url)
    end in
  let '(loc, url2) :=
    match split_netloc url1 with
    | Some (l, r) => (l, r)
    | None => (EmptyString, url1)
    end in
  if (contains "[" loc && negb (contains "]" loc))
     || (contains "]" loc && negb (contains "[" loc))
  then inl (ValueError "Invalid IPv6 URL")
  else
    let '(url3, _, frag) := partition "#" url2 in
    let '(url4, _, qry) := partition "?" url3 in
    inr (sch, loc, url4, qry, frag).

Definition uses_params : list string :=
  ["ftp"; "hdl"; "prospero"; "http"; "imap"; "https"; "shttp"; "rtsp";
   "rtspu"; "sip"; "sips"; "mms"; ""; "sftp"; "tel"].

(** [_splitparams(url)], called when [';' in url] *)
Definition _splitparams (url : string) : string * string :=
  match split_last "/" url with
  | Some (b, t) =>
      match partition ";" t with
      | (t1, true, t2) => (b +:+ "/" +:+ t1, t2)
      | _ => (url, EmptyString)
      end
  | None => let '(b, _, t) := partition ";" url in (b, t)
  end.

Definition urlparse (url : string) : exn + ParseResult :=
  match urlsplit url with
  | inl e => inl e
  | inr (sch, loc, url1, qry, frag) =>
      let '(url2, prm) :=
        if bool_decide (sch ∈ uses_params) && contains ";" url1
        then _splitparams url1 else (url1, EmptyString) in
      inr (mkParseResult sch loc url2 prm qry frag)
  end.

(** [_hostinfo]: the host text and the port text of the netloc *)
Definition _hostinfo (r : ParseResult) : string * option string :=
  let '(_, _, hostinfo) := rpartition "@" (netloc r) in
  let '(_, have_open_br, bracketed) := partition "[" hostinfo in
  let '(hostname, have_port, port) :=
    if have_open_br
    then let '(h, _, p) := partition "]" bracketed in
         let '(_, hp, p') := partition ":" p in (h, hp, p')
    else partition ":" hostinfo in
  (hostname, if have_port then Some port else None).

Definition hostname (r : ParseResult) : option string :=
  match fst (_hostinfo r) with
  | EmptyString => None
  | h => Some (lower h)
  end.

(** [port]: [None] without a port or with one out of range; [int] raises
    [ValueError] on text that is no numeral. *)
Definition port (r : ParseResult) : exn + option Z :=
  match snd (_hostinfo r) with
  | None => inr None
  | Some p =>
      match int10 p with
      | None => inl (ValueError
                       ("invalid literal for int() with base 10: '" +:+ p +:+ "'"))
      | Some n => inr (if (0 <=? n) && (n <=? 65535) then Some n else None)
      end
  end.

End Url.

(** ** core/remote.py *)

Module Remote.
Import Models.

(** Shared modules are opaque Python objects, told apart by identity;
    [PyNone] is Python's [None]. *)
Inductive pyobj : Type := PyNone | PyRef (id : nat).

Abbreviation addr := nat (only parsing).

(** What [RemoteModule.__init__] stores: the connection (the peer it was
    opened to), the proxy [module] and the [name]. *)
Record RemoteModule : Type := mkRemoteModule {
  connection : option string * option Z;
  module : pyobj;
  name : string;
}.

(** One process: the table objects it has created, and what its logger
    has been told. *)
Record process : Type := mkProcess {
  dicts : gmap addr (DictTableModel pyobj);
  lists : gmap addr (ListTableModel RemoteModule);
  log : list log_entry;
}.

(** The attributes of a [RemoteObjectManager]; both tables are held by
    reference. *)
Record RemoteObjectManager : Type := mkManager {
  hostname : string;
  remoteModules : addr;
  sharedModules : addr;
}.

(** [class RemoteModuleService]: its class attribute [modules] is bound to
    the manager's [sharedModules] object itself, not to a copy. *)
Record RemoteModuleService : Type := mkService { modules : addr }.

Definition logMsg (text : string) (t : msgType) : py process unit :=
  modify (fun p => mkProcess (dicts p) (lists p) (log p ++ [LogEntry t text])).

Definition read_dict (a : addr) : py process (DictTableModel pyobj) :=
  fun p => match dicts p !! a with
           | Some d => Returned d p
           | None => Raised ReferenceError p
           end.

Definition write_dict (a : addr) (d : DictTableModel pyobj) : py process unit :=
  modify (fun p => mkProcess (<[a := d]> (dicts p)) (lists p) (log p)).

Definition read_list (a : addr) : py process (ListTableModel RemoteModule) :=
  fun p => match lists p !! a with
           | Some l => Returned l p
           | None => Raised ReferenceError p
           end.

Definition write_list (a : addr) (l : ListTableModel RemoteModule)
    : py process unit :=
  modify (fun p => mkProcess (dicts p) (<[a := l]> (lists p)) (log p)).

Definition fresh {V} (m : gmap addr V) : addr := fresh (dom m).

(** [RemoteObjectManager.__init__]: two new tables, with their first header
    renamed. *)
Definition RemoteObjectManager_init (host : string)
    : py process RemoteObjectManager :=
  let* r := gets (fun p => fresh (lists p)) in
  exec write_list r
    (let l := ListTableModel_new in
     mkList (<[0%nat := "Remote Modules"]> (list_headers l)) (list_storage l)) in
  let* s := gets (fun p => fresh (dicts p)) in
  exec write_dict s
    (let d := DictTableModel_new in
     mkDict (<[0%nat := "Shared Modules"]> (dict_headers d)) (storage d)) in
  ret (mkManager host r s).

Definition makeRemoteService (self : RemoteObjectManager) : RemoteModuleService :=
  mkService (sharedModules self).

(** The two hooks log without a [msgType]; the logger's default severity is
    taken to be [status]. *)
Definition on_connect (self : RemoteModuleService) : py process unit :=
  logMsg "Client connected!" status.

Definition on_disconnect (self : RemoteModuleService) : py process unit :=
  logMsg "Client disconnected!" status.

Definition exposed_getModule (self : RemoteModuleService) (name : string)
    : py process pyobj :=
  let* m := read_dict (modules self) in
  match storage m !! name with
  | Some o => ret o
  | None =>
      exec logMsg "Client requested a module that is not shared." error in
      ret PyNone
  end.

Definition shareModule (self : RemoteObjectManager) (name : string) (obj : pyobj)
    : py process unit :=
  let* m := read_dict (sharedModules self) in
  exec (if decide (is_Some (storage m !! name))
        then logMsg ("Module " +:+ name +:+ " already shared.") warning
        else ret tt) in
  exec write_dict (sharedModules self) (snd (add name obj m)) in
  logMsg ("Shared module " +:+ name +:+ ".") status.

Definition unshareModule (self : RemoteObjectManager) (name : string)
    : py process unit :=
  let* m := read_dict (sharedModules self) in
  exec (if decide (is_Some (storage m !! name))
        then logMsg ("Module " +:+ name +:+ " was not shared.") error
        else ret tt) in
  write_dict (sharedModules self) (snd (pop name m)).

(** *** The client side

    A peer is a process that runs an RPyC server for a service class.
    [rpyc.connect] reaches the peer listening at the given host and port,
    if there is one, and the peer's [on_connect] hook runs; a call on
    [connection.root] runs the exposed method in the peer's process, and
    an exception raised there is raised again at the caller. *)

Abbreviation endpoint := (option string * option Z)%type (only parsing).

Record peer : Type := mkPeer {
  serviceClass : RemoteModuleService;
  remote : process;
}.

Record net : Type := mkNet {
  local : process;
  peers : gmap endpoint peer;
}.

Definition locally {A} (m : py process A) : py net A :=
  fun n => match m (local n) with
           | Returned a p => Returned a (mkNet p (peers n))
           | Raised e p => Raised e (mkNet p (peers n))
           end.

Definition on_peer {A} (c : endpoint) (m : RemoteModuleService -> py process A)
    : py net A :=
  fun n => match peers n !! c with
           | None => Raised ConnectionRefusedError n
           | Some q =>
               let put r :=
                 mkNet (local n) (<[c := mkPeer (serviceClass q) r]> (peers n)) in
               match m (serviceClass q) (remote q) with
               | Returned a r => Returned a (put r)
               | Raised e r => Raised e (put r)
               end
           end.

Definition rpyc_connect (host : option string) (port : option Z)
    : py net endpoint :=
  exec on_peer (host, port) on_connect in
  ret (host, port).

(** [RemoteModule.__init__] *)
Definition RemoteModule_init (host : option string) (port : option Z)
    (name : string) : py net RemoteModule :=
  let* connection := rpyc_connect host port in
  let* module := on_peer connection (fun root => exposed_getModule root name) in
  ret (mkRemoteModule connection module name).

Definition getRemoteModule (self : RemoteObjectManager)
    (host : option string) (port : option Z) (name : string) : py net pyobj :=
  let* module := RemoteModule_init host port name in
  exec locally (let* l := read_list (remoteModules self) in
                write_list (remoteModules self) (append module l)) in
  ret (Remote.module module).

Definition getRemoteModuleUrl (self : RemoteObjectManager) (url : string)
    : py net pyobj :=
  let* parsed := lift_sum (Url.urlparse url) in
  let name := Url.remove_char "/" (Url.path parsed) in
  let host := Url.hostname parsed in
  let* port := lift_sum (Url.port parsed) in
  getRemoteModule self host port name.

End Remote.

(** ** logic/generic_logic.py *)

Module Logic.
Import Models.

(** *** Python values held by a task *)

(** What a plain callable does when it is called. *)
Inductive work : Type := Returns | Raises (text : string).

#[warnings="-register-all"]
Inductive pyval : Type :=
| VNone
| VBool (b : bool)
| VStr (s : string)
| VList (l : list pyval)
| VDict (items : list (string * pyval)) (* a dictionary with string keys *)
| VFunc (w : work)                     (* a plain function *)
| VLogMsg                              (* a logger's bound [logMsg] *)
| VMethod (name : string)              (* bound method [self.name] *)
| VEvent (name : string)               (* event function built by Fysom *)
| VSignal (name : string)              (* bound Qt signal *)
| VMutex
| VTaskResult (data success : pyval)   (* a [TaskResult] object *)
| VEventObj (event src dst : string).  (* the object Fysom hands to hooks *)

Definition callable (v : pyval) : bool :=
  match v with
  | VFunc _ | VLogMsg | VMethod _ | VEvent _ => true
  | _ => false
  end.

Definition truthy (v : pyval) : bool :=
  match v with
  | VNone | VBool false | VStr EmptyString | VList [] | VDict [] => false
  | _ => true
  end.

(** An [InterruptableTask] object: its instance dictionary, the transition
    map Fysom keeps in [_map], what has been logged through it and the
    signals it has emitted. *)
Record InterruptableTask : Type := mkTask {
  attrs : gmap string pyval;
  _map : gmap string (gmap string string);
  log : list log_entry;
  emitted : list string;
}.

(** Names found on the class and its bases [QtCore.QObject] and [Fysom]
    when the instance dictionary has no entry. *)
Definition class_signals : list string :=
  ["sigPaused"; "sigResumed"; "sigExecutionStarted"; "sigExecutionFinished"].
Definition class_methods : list string :=
  ["makeInterruptable"; "_run"; "_pause"; "_resume"; "_finish"; "canPause";
   "isstate"; "can"; "cannot"; "is_finished"; "trigger";
   "blockSignals"; "children"; "connect"; "deleteLater"; "destroyed";
   "disconnect"; "emit"; "event"; "eventFilter"; "findChild"; "inherits";
   "killTimer"; "metaObject"; "moveToThread"; "objectName"; "parent";
   "property"; "sender"; "setObjectName"; "setParent"; "setProperty";
   "signalsBlocked"; "startTimer"; "thread"; "tr"].

Definition class_attr (name : string) : option pyval :=
  if bool_decide (name ∈ class_signals) then Some (VSignal name)
  else if bool_decide (name ∈ class_methods) then Some (VMethod name)
  else None.

Definition lookup_attr (t : InterruptableTask) (name : string) : option pyval :=
  match attrs t !! name with
  | Some v => Some v
  | None => class_attr name
  end.

(** [self.name] *)
Definition getattr (name : string) : py InterruptableTask pyval :=
  fun t => match lookup_attr t name with
           | Some v => Returned v t
           | None => Raised (AttributeError "InterruptableTask" name) t
           end.

Definition hasattr (name : string) : py InterruptableTask bool :=
  gets (fun t => bool_decide (is_Some (lookup_attr t name))).

(** [self.name = v] *)
Definition setattr (name : string) (v : pyval) : py InterruptableTask unit :=
  modify (fun t => mkTask (<[name := v]> (attrs t)) (_map t) (log t) (emitted t)).

Definition delattr (name : string) : py InterruptableTask unit :=
  modify (fun t => mkTask (delete name (attrs t)) (_map t) (log t) (emitted t)).

(** [str(v)] where a message is formatted *)
Definition str (v : pyval) : string :=
  match v with
  | VStr s => s
  | VNone => "None"
  | VBool true => "True"
  | VBool false => "False"
  | _ => "<object>"
  end.

(** *** Calls with unpacked arguments, and the binding of arguments *)

(** What [*v] unpacks to in a call: the elements of a list, the
    characters of a string, the keys of a dictionary; a value of another
    kind is not iterable and the call raises [TypeError]. *)
Definition unpack_args (v : pyval) : exn + list pyval :=
  match v with
  | VList l => inr l
  | VStr s => inr (map (fun c => VStr (String c EmptyString)) (list_ascii_of_string s))
  | VDict items => inr (map (fun kv => VStr kv.1) items)
  | _ => inl (TypeError "argument after * must be an iterable")
  end.

(** What [**v] unpacks to: the items of a dictionary; a value of another
    kind is not a mapping and the call raises [TypeError]. *)
Definition unpack_kwargs (v : pyval) : exn + list (string * pyval) :=
  match v with
  | VDict items => inr items
  | _ => inl (TypeError "argument after ** must be a mapping")
  end.

Fixpoint assoc (k : string) (kw : list (string * pyval)) : option pyval :=
  match kw with
  | [] => None
  | (k', v) :: rest => if String.eqb k k' then Some v else assoc k rest
  end.

Fixpoint index_of (k : string) (names : list string) : option nat :=
  match names with
  | [] => None
  | n :: rest => if String.eqb k n then Some 0%nat else S <$> index_of k rest
  end.

(** The first keyword that names no parameter, or a parameter that a
    positional argument has filled. *)
Fixpoint bad_keyword (fname : string) (params : list string) (given : nat)
    (kw : list (string * pyval)) : option exn :=
  match kw with
  | [] => None
  | (k, _) :: rest =>
      match index_of k params with
      | None =>
          Some (TypeError (fname +:+ "() got an unexpected keyword argument '"
                           +:+ k +:+ "'"))
      | Some i =>
          if (i <? given)%nat
          then Some (TypeError (fname +:+ "() got multiple values for argument '"
                                +:+ k +:+ "'"))
          else bad_keyword fname params given rest
      end
  end.

Definition quoted (names : list string) : string :=
  match names with
  | [] => ""
  | [a] => "'" +:+ a +:+ "'"
  | [a; b] => "'" +:+ a +:+ "' and '" +:+ b +:+ "'"
  | _ => String.concat ", " (map (fun a => "'" +:+ a +:+ "'") names)
  end.

Definition plural (n : nat) (word : string) : string :=
  if (n =? 1)%nat then word else word +:+ "s".

(** The values of the parameters [params] that a method has after [self],
    from the positional arguments [pos] and the keywords [kw]; none of the
    methods below has a default value, [*args] or [**kwargs]. *)
Definition bind_params (fname : string) (params : list string)
    (pos : list pyval) (kw : list (string * pyval)) : exn + list pyval :=
  match bad_keyword fname params (length pos) kw with
  | Some e => inl e
  | None =>
      if (length params <? length pos)%nat then
        inl (TypeError
               (fname +:+ "() takes " +:+ pretty (S (length params))
                +:+ " positional " +:+ plural (S (length params)) "argument"
                +:+ " but " +:+ pretty (S (length pos)) +:+ " were given"))
      else
        let rest := drop (length pos) params in
        let missing :=
          List.filter (fun p => negb (bool_decide (is_Some (assoc p kw)))) rest in
        match missing with
        | [] => inr (pos ++ omap (fun p => assoc p kw) rest)%list
        | _ =>
            inl (TypeError
                   (fname +:+ "() missing " +:+ pretty (length missing)
                    +:+ " required positional "
                    +:+ plural (length missing) "argument" +:+ ": "
                    +:+ quoted missing))
        end
  end.

(** [sig.emit()] on an attribute of the task *)
Definition emit (sig : pyval) : py InterruptableTask unit :=
  match sig with
  | VSignal name =>
      modify (fun t => mkTask (attrs t) (_map t) (log t) (emitted t ++ [name]))
  | _ => raise (AttributeError "object" "emit")
  end.

(** *** class TaskResult *)

Definition TaskResult_init : pyval := VTaskResult VNone VNone.

(** Attribute lookup on a [TaskResult]: [data], [success], and the one
    method the class defines, [updata]. *)
Definition TaskResult_getattr (r : pyval) (name : string)
    : py InterruptableTask pyval :=
  match r with
  | VTaskResult d s =>
      if String.eqb name "data" then ret d
      else if String.eqb name "success" then ret s
      else if String.eqb name "updata" then ret (VMethod "updata")
      else raise (AttributeError "TaskResult" name)
  | VNone => raise (AttributeError "NoneType" name)
  | _ => raise (AttributeError "object" name)
  end.

(** [TaskResult.updata(self, data, success)] *)
Definition updata (r data success : pyval) : pyval :=
  match r with
  | VTaskResult _ _ => VTaskResult data success
  | _ => r
  end.

(** *** Fysom (the state machine base class) *)

Record event : Type := mkEvent { ev_name : string; ev_src : string; ev_dst : string }.

Record config : Type := mkConfig {
  initial : option string;
  events : list event;
  callbacks : list (string * pyval);
}.

(** The configuration [Fysom.__init__(self)] applies: its [cfg] parameter
    defaults to the empty dictionary, so there is no initial state, no
    event and no callback. *)
Definition empty_config : config := mkConfig None [] [].

Definition WILDCARD : string := "*".

(** [can(event)] *)
Definition can (event : string) : py InterruptableTask bool :=
  fun t =>
    match _map t !! event with
    | None => Returned false t
    | Some srcs =>
        (let* cur := getattr "current" in
         let* pending := hasattr "transition" in
         let here := match cur with
                     | VStr c => bool_decide (is_Some (srcs !! c))
                     | _ => false
                     end in
         ret ((here || bool_decide (is_Some (srcs !! WILDCARD))) && negb pending)) t
    end.

(** *** class InterruptableTask *)

Definition makeInterruptable (pausefunction resumefunction : pyval)
    : py InterruptableTask unit :=
  let* own := getattr "pausefunction" in
  if callable own && callable resumefunction then
    exec setattr "pausefunction" pausefunction in
    exec setattr "resumefuncion" resumefunction in
    setattr "interruptable" (VBool true)
  else ret tt.

Definition canPause : py InterruptableTask pyval :=
  let* i := getattr "interruptable" in
  if truthy i then
    let* c := can "pause" in ret (VBool c)
  else ret i.

Definition _finish (e : pyval) : py InterruptableTask unit :=
  (* [result] is not a name of the function or of the module *)
  raise (NameError "result").

(** The three callbacks [_run], [_pause] and [_resume] call values the
    task holds ([self.function], [self.logMsg]), and such a value may be a
    bound method of the task itself, one of the three included.  Their
    bodies are therefore written over the way a value is called, which
    [call] below provides. *)
Definition caller : Type :=
  pyval -> list pyval -> list (string * pyval) -> py InterruptableTask pyval.

(** [self.result.update(data, success)] *)
Definition result_update_body (call : caller) (data success : pyval)
    : py InterruptableTask unit :=
  let* r := getattr "result" in
  let* update := TaskResult_getattr r "update" in
  exec call update [data; success] [] in
  ret tt.

(** The [except Exception as e:] block that [_run], [_pause] and [_resume]
    share word for word. *)
Definition on_exception_body (call : caller) (e : exn) : py InterruptableTask unit :=
  let* logMsg := getattr "logMsg" in
  let* name := getattr "name" in
  exec call logMsg
    [VStr ("Exception during task " +:+ str name +:+ ". " +:+ exn_text e)]
    [("msgType", VStr "error")] in
  result_update_body call VNone (VBool false).

(** The [try] block that the three share word for word, with its handler.
    The call unpacks [self.args] after a star and [self.kwargs] after
    two: the three attributes are read first; then the interpreter checks
    that [kwargs] is a mapping and that [args] is iterable, and only then
    calls. *)
Definition guarded_work_body (call : caller) : py InterruptableTask unit :=
  try_except
    (let* f := getattr "function" in
     if callable f then
       let* f := getattr "function" in
       let* args := getattr "args" in
       let* kwargs := getattr "kwargs" in
       let* kw := lift_sum (unpack_kwargs kwargs) in
       let* pos := lift_sum (unpack_args args) in
       exec call f pos kw in
       ret tt
     else result_update_body call VNone (VBool false))
    (on_exception_body call).

Definition _run_body (call : caller) (e : pyval) : py InterruptableTask unit :=
  exec setattr "result" TaskResult_init in
  guarded_work_body call.

Definition _pause_body (call : caller) (e : pyval) : py InterruptableTask unit :=
  exec guarded_work_body call in
  let* sig := getattr "sigPaused" in
  emit sig.

Definition _resume_body (call : caller) (e : pyval) : py InterruptableTask unit :=
  exec guarded_work_body call in
  let* sig := getattr "sigResumed" in
  (* [sig.eimit()]: a bound signal has no such attribute *)
  raise (AttributeError "PyQt4.QtCore.pyqtBoundSignal" "eimit").

(** Calling the bound method [self.name] with the given arguments, for
    the six methods that class [InterruptableTask] defines.  The methods
    the class inherits from [Fysom] and [QObject] are library code that is
    not embedded here; a call of one of them is given as failing. *)
Definition call_bound (call : caller) (name : string)
    (pos : list pyval) (kw : list (string * pyval)) : py InterruptableTask pyval :=
  if String.eqb name "makeInterruptable" then
    let* a := lift_sum (bind_params name ["pausefunction"; "resumefunction"] pos kw) in
    exec makeInterruptable (nth 0 a VNone) (nth 1 a VNone) in
    ret VNone
  else if String.eqb name "canPause" then
    exec lift_sum (bind_params name [] pos kw) in
    canPause
  else if String.eqb name "_run" then
    let* a := lift_sum (bind_params name ["e"] pos kw) in
    exec _run_body call (nth 0 a VNone) in
    ret VNone
  else if String.eqb name "_pause" then
    let* a := lift_sum (bind_params name ["e"] pos kw) in
    exec _pause_body call (nth 0 a VNone) in
    ret VNone
  else if String.eqb name "_resume" then
    let* a := lift_sum (bind_params name ["e"] pos kw) in
    exec _resume_body call (nth 0 a VNone) in
    ret VNone
  else if String.eqb name "_finish" then
    let* a := lift_sum (bind_params name ["e"] pos kw) in
    exec _finish (nth 0 a VNone) in
    ret VNone
  else raise (TypeError (name +:+ "() is not a method of InterruptableTask")).

(** The severity a [logMsg] call names with [msgType=...]; the logger's
    default is taken to be [status]. *)
Definition msgType_of (kw : list (string * pyval)) : msgType :=
  match assoc "msgType" kw with
  | Some (VStr "error") => error
  | Some (VStr "warning") => warning
  | _ => status
  end.

(** An event function that Fysom has bound to the task, called where the
    event cannot fire: like [event_fn] below it raises [FysomError]
    before any hook runs.  Where the event can fire the hooks would run;
    that case is not embedded at this place, and the call is given as
    failing.  No task that the constructor makes has an event that can
    fire. *)
Definition event_not_run (event : string) : py InterruptableTask pyval :=
  let* pending := hasattr "transition" in
  if pending then
    raise (FysomError ("event " +:+ event
             +:+ " inappropriate because previous transition did not complete"))
  else
    let* ok := can event in
    let* cur := getattr "current" in
    let src := match cur with VStr c => c | _ => "" end in
    if ok then raise (TypeError ("event " +:+ event +:+ " is not run"))
    else raise (FysomError ("event " +:+ event
                  +:+ " inappropriate in current state " +:+ src)).

(** Calling a value with positional arguments and keywords, when [depth]
    more calls can be nested before the interpreter's recursion limit is
    hit.  A value that is not callable raises [TypeError].  A plain
    function returns or raises as its [work] says;
    [logMsg(text, msgType=...)] appends to the log; a bound method of the
    task runs ([call_bound]), one call deeper; for an event function see
    [event_not_run].  At the limit the call raises. *)
Fixpoint call (depth : nat) (f : pyval) (pos : list pyval)
    (kw : list (string * pyval)) : py InterruptableTask pyval :=
  if negb (callable f) then raise (TypeError "object is not callable")
  else
    match depth with
    | O => raise RecursionError
    | S below =>
        match f with
        | VFunc Returns => ret VNone
        | VFunc (Raises text) => raise (WorkError text)
        | VLogMsg =>
            match pos with
            | [] =>
                raise (TypeError
                         "logMsg() missing 1 required positional argument: 'message'")
            | v :: _ =>
                exec modify (fun t =>
                       mkTask (attrs t) (_map t)
                         (log t ++ [LogEntry (msgType_of kw) (str v)])
                         (emitted t)) in
                ret VNone
            end
        | VMethod name => call_bound (call below) name pos kw
        | VEvent name => event_not_run name
        | _ => raise (TypeError "object is not callable")
        end
    end.

(** The interpreter's default recursion limit.  How deep the stack is
    when a callback starts is not part of this model; the properties
    below that go through [call] hold for every depth. *)
Definition recursion_limit : nat := 1000%nat.

Definition result_update (data success : pyval) : py InterruptableTask unit :=
  result_update_body (call recursion_limit) data success.

Definition on_exception (e : exn) : py InterruptableTask unit :=
  on_exception_body (call recursion_limit) e.

Definition guarded_work : py InterruptableTask unit :=
  guarded_work_body (call recursion_limit).

Definition _run (e : pyval) : py InterruptableTask unit :=
  _run_body (call recursion_limit) e.

Definition _pause (e : pyval) : py InterruptableTask unit :=
  _pause_body (call recursion_limit) e.


(** Calling a bound method of the task with the event object, as Fysom
    calls a hook. *)
Definition call_method (name : string) (e : pyval) : py InterruptableTask pyval :=
  call recursion_limit (VMethod name) [e] [].

(** *** Fysom: events *)

(** The hook [fnname], if the object has it, called with the event object;
    [None] when there is no such hook. *)
Definition call_hook (fnname : string) (e : pyval) : py InterruptableTask pyval :=
  let* has := hasattr fnname in
  if has then
    let* h := getattr fnname in
    match h with
    | VMethod m => call_method m e
    | _ => call recursion_limit h [e] []
    end
  else ret VNone.

(** The first hook of the list that the object has. *)
Fixpoint call_first_hook (fnnames : list string) (e : pyval)
    : py InterruptableTask pyval :=
  match fnnames with
  | [] => ret VNone
  | fnname :: rest =>
      let* has := hasattr fnname in
      if has then call_hook fnname e else call_first_hook rest e
  end.

Definition is_False (v : pyval) : bool :=
  match v with VBool false => true | _ => false end.

Definition destination (srcs : gmap string string) (src : string) : option string :=
  match srcs !! src with
  | Some d => Some d
  | None => srcs !! WILDCARD
  end.

(** The function [_build_event(event)] returns.  It gives [False] when the
    [onbefore] hook vetoes the event and [None] otherwise. *)
Definition event_fn (event : string) : py InterruptableTask pyval :=
  let* pending := hasattr "transition" in
  if pending then
    raise (FysomError ("event " +:+ event
             +:+ " inappropriate because previous transition did not complete"))
  else
    let* ok := can event in
    let* cur := getattr "current" in
    let src := match cur with VStr c => c | _ => "" end in
    let* srcs := gets (fun t => default ∅ (_map t !! event)) in
    match ok, destination srcs src with
    | true, Some dst =>
        let e := VEventObj event src dst in
        if String.eqb src dst then
          exec call_hook ("onbefore" +:+ event) e in
          exec call_hook ("onreenter" +:+ dst) e in
          exec call_first_hook ["onafter" +:+ event; "on" +:+ event] e in
          ret VNone
        else
          let* before := call_hook ("onbefore" +:+ event) e in
          if is_False before then ret (VBool false)
          else
            exec setattr "transition" (VMethod "_tran") in
            let* leave := call_hook ("onleave" +:+ src) e in
            if is_False leave then ret VNone
            else
              exec delattr "transition" in
              exec setattr "current" (VStr dst) in
              exec call_first_hook ["onenter" +:+ dst; "on" +:+ dst] e in
              exec call_hook "onchangestate" e in
              exec call_first_hook ["onafter" +:+ event; "on" +:+ event] e in
              ret VNone
    | _, _ =>
        raise (FysomError ("event " +:+ event
                 +:+ " inappropriate in current state " +:+ src))
    end.

Definition add_transition (e : event)
    (tmap : gmap string (gmap string string)) : gmap string (gmap string string) :=
  <[ev_name e := <[ev_src e := ev_dst e]> (default ∅ (tmap !! ev_name e))]> tmap.

(** [_apply(cfg)] *)
Definition _apply (cfg : config) : py InterruptableTask unit :=
  let all_events :=
    match initial cfg with
    | Some s => mkEvent "startup" "none" s :: events cfg
    | None => events cfg
    end in
  let tmap := foldl (fun m e => add_transition e m) ∅ all_events in
  exec modify (fun t => mkTask (attrs t) tmap (log t) (emitted t)) in
  exec setattr "_final" VNone in
  exec modify (fun t =>
         mkTask (foldl (fun a e => <[ev_name e := VEvent (ev_name e)]> a)
                   (attrs t) all_events)
                (_map t) (log t) (emitted t)) in
  exec modify (fun t =>
         mkTask (foldl (fun a kv => <[kv.1 := kv.2]> a) (attrs t) (callbacks cfg))
                (_map t) (log t) (emitted t)) in
  exec setattr "current" (VStr "none") in
  match initial cfg with
  | Some _ =>
      let* startup := getattr "startup" in
      match startup with
      | VEvent ev => exec event_fn ev in ret tt
      | other => exec call recursion_limit other [] [] in ret tt
      end
  | None => ret tt
  end.

Definition Fysom_init (cfg : config) : py InterruptableTask unit := _apply cfg.

(** [self.event()]: what a caller does to fire an event *)
Definition fire (event : string) : py InterruptableTask pyval :=
  let* f := getattr event in
  match f with
  | VEvent ev => event_fn ev
  | other => call recursion_limit other [] []
  end.

(** *** InterruptableTask.__init__ *)

Definition _default_callbacks : list (string * pyval) :=
  [("run", VMethod "_run"); ("pause", VMethod "_pause");
   ("resume", VMethod "_resume"); ("finish", VMethod "_finish")].

Definition _stateList : config :=
  mkConfig (Some "stopped")
    [mkEvent "run" "stopped" "running";
     mkEvent "pause" "running" "paused";
     mkEvent "finish" "running" "stopped";
     mkEvent "resume" "paused" "running"]
    _default_callbacks.

(** A new object, before any [__init__] has run. *)
Definition blank : InterruptableTask := mkTask ∅ ∅ [] [].

(** [__init__(self, name, function, args, kwargs)].  [_default_callbacks]
    and [_stateList] are local names that nothing reads: Fysom is
    initialised without a configuration. *)
Definition InterruptableTask_init (name function args kwargs : pyval)
    : py InterruptableTask unit :=
  let _default_callbacks := _default_callbacks in
  let _stateList := _stateList in
  exec Fysom_init empty_config in
  exec setattr "lock" VMutex in
  exec setattr "name" name in
  exec setattr "func" function in
  exec setattr "args" args in
  exec setattr "interruptable" (VBool false) in
  setattr "success" (VBool false).

(** [InterruptableTask(name, function, args, kwargs)] *)
Definition new_task (name function args kwargs : pyval) : InterruptableTask :=
  final_state (InterruptableTask_init name function args kwargs blank).

Definition current (t : InterruptableTask) : option pyval := attrs t !! "current".

(** *** class GenericLogic *)

(** A task object as the registry sees it: its identity and the value of
    its [name] attribute. *)
Record task_ref : Type := mkTaskRef { task_id : nat; task_name : string }.

(** The interpreter state the logic modules run in: the table objects
    created so far, the number of [Mutex] objects created so far, and the
    messages reported through [logMsg]. *)
Record world : Type := mkWorld {
  tables : gmap nat (DictTableModel task_ref);
  mutexes : nat;
  messages : list log_entry;
}.

(** The attributes of the class object: [_tasks] is bound once, when the
    class body runs. *)
Record GenericLogic_class : Type := mkClass {
  _modclass : string;
  _modtype : string;
  _tasks : nat;
}.

(** The attributes [__init__] gives an instance.  There is no [_tasks]
    among them, so [self._tasks] finds the attribute of the class. *)
Record GenericLogic : Type := mkLogic {
  _name : string;
  taskLock : nat;
}.

Definition read_table (a : nat) : py world (DictTableModel task_ref) :=
  fun w => match tables w !! a with
           | Some d => Returned d w
           | None => Raised ReferenceError w
           end.

Definition write_table (a : nat) (d : DictTableModel task_ref) : py world unit :=
  modify (fun w => mkWorld (<[a := d]> (tables w)) (mutexes w) (messages w)).

(** [Mutex()] *)
Definition Mutex : py world nat :=
  fun w => Returned (mutexes w) (mkWorld (tables w) (S (mutexes w)) (messages w)).

(** Modelled from the spec: [logMsg] is inherited from core/base.py, which
    is not among the sources; it reports the message with its severity
    (section 6, the structured logger). *)
Definition logMsg (text : string) (t : msgType) : py world unit :=
  modify (fun w => mkWorld (tables w) (mutexes w) (messages w ++ [LogEntry t text])).

(** The class body: [_tasks = DictTableModel()] *)
Definition GenericLogic_class_body : py world GenericLogic_class :=
  let* a := gets (fun w => fresh (dom (tables w))) in
  exec write_table a DictTableModel_new in
  ret (mkClass "GenericLogic" "Logic" a).

(** [GenericLogic.__init__] *)
Definition GenericLogic_init (name : string) : py world GenericLogic :=
  let* l := Mutex in
  ret (mkLogic name l).

(** [registerTask].  The body runs holding [self.taskLock]; in a
    sequential run the lock is free on entry and released on both
    returns. *)
Definition registerTask (cls : GenericLogic_class) (self : GenericLogic)
    (task : task_ref) : py world Z :=
  let* d := read_table (_tasks cls) in
  let '(r, d') := add (task_name task) task d in
  exec write_table (_tasks cls) d' in
  match r with
  | None =>
      exec logMsg ("Could not register task " +:+ task_name task
                   +:+ " because a task is already registered with this name.")
             error in
      ret (-1)
  | Some _ => ret 0
  end.

(** [self._tasks.storage], read through an instance *)
Definition tasks_seen_by (cls : GenericLogic_class) (self : GenericLogic)
    (w : world) : option (gmap string task_ref) :=
  storage <$> tables w !! _tasks cls.

End Logic.

(** ** Reference notions and sample states *)

Module Samples.
Import Models Remote.

(** A URL of the addressed form, from its four components. *)
Definition mk_url (scheme host port name : string) : string :=
  scheme +:+ "://" +:+ host +:+ ":" +:+ port +:+ "/" +:+ name.

(** The name as the specification words it: the path "with leading
    slash stripped". *)
Definition strip_leading_slash (path : string) : string :=
  match path with
  | String "/" r => r
  | _ => path
  end.

(** Characters that end or structure the host part of a netloc. *)
Definition is_host_char (c : ascii) : bool :=
  negb (Ascii.eqb c "/" || Ascii.eqb c "?" || Ascii.eqb c "#"
        || Ascii.eqb c ":" || Ascii.eqb c "@"
        || Ascii.eqb c "[" || Ascii.eqb c "]").

(** Characters that would end the path or open its parameters. *)
Definition is_name_char (c : ascii) : bool :=
  negb (Ascii.eqb c "?" || Ascii.eqb c "#" || Ascii.eqb c ";").

(** The resolution as the specification words it: the URL parses, and
    the call is the one to [getRemoteModule] with the parsed host, the
    parsed port and the path without its leading slash. *)
Definition resolves_as_specified (self : RemoteObjectManager) (url : string)
    (n : net) : Prop :=
  exists r host port,
    Url.urlparse url = inr r /\
    Url.hostname r = host /\
    Url.port r = inr port /\
    getRemoteModuleUrl self url n
    = getRemoteModule self host port (strip_leading_slash (Url.path r)) n.

(** A process right after [RemoteObjectManager.__init__]. *)
Definition fresh_process : process := mkProcess ∅ ∅ [].

Definition manager0 : RemoteObjectManager :=
  match RemoteObjectManager_init "lab-pc" fresh_process with
  | Returned m _ => m
  | Raised _ _ => mkManager "lab-pc" 0%nat 0%nat
  end.

Definition process0 : process :=
  final_state (RemoteObjectManager_init "lab-pc" fresh_process).

(** A server process that shares one module, under the name [ab]. *)
Definition server_process : process :=
  final_state (shareModule manager0 "ab" (PyRef 7) process0).

Definition network0 : net :=
  mkNet process0
    {[ (Some "host", Some 1234) := mkPeer (makeRemoteService manager0) server_process ]}.

(** The logic side: the interpreter after the class body of
    [GenericLogic] has run, two modules, and one registered task. *)
Definition empty_world : Logic.world := Logic.mkWorld ∅ 0 [].

Definition logic_class : Logic.GenericLogic_class :=
  match Logic.GenericLogic_class_body empty_world with
  | Returned c _ => c
  | Raised _ _ => Logic.mkClass "GenericLogic" "Logic" 0
  end.

Definition world0 : Logic.world :=
  final_state (Logic.GenericLogic_class_body empty_world).

Definition logic_a : Logic.GenericLogic := Logic.mkLogic "odmrlogic" 0.
Definition logic_b : Logic.GenericLogic := Logic.mkLogic "counterlogic" 1.

Definition world1 : Logic.world :=
  final_state
    (Logic.registerTask logic_class logic_a (Logic.mkTaskRef 1 "scan") world0).

(** The transition table of section 4.2, as a function from the event
    and the state it is fired in to the state it leads to. *)
Definition transition_table (event state : string) : option string :=
  if String.eqb event "run" && String.eqb state "stopped" then Some "running"
  else if String.eqb event "pause" && String.eqb state "running" then Some "paused"
  else if String.eqb event "resume" && String.eqb state "paused" then Some "running"
  else if String.eqb event "finish" && String.eqb state "running" then Some "stopped"
  else None.

(** An object on which Fysom has been initialised WITH [_stateList]. *)
Definition configured_task : Logic.InterruptableTask :=
  final_state (Logic.Fysom_init Logic._stateList Logic.blank).

End Samples.

(** ** core/remote.py: the server life cycle *)

Module Serving.
Import Models Remote.

(** An [RPyCServer] object: the two attributes [__init__] stores and the
    thread [moveToThread] has given it. *)
Record RPyCServer : Type := mkRPyCServer {
  serviceClass : RemoteModuleService;
  port : Z;
  thread : option string;
}.

(** Names an [RPyCServer] answers to: its instance attributes, the method
    [run] (which binds [server] once it has run) and those of
    [QtCore.QObject]. *)
Definition RPyCServer_attrs : list string :=
  ["serviceClass"; "port"; "server"; "run";
   "blockSignals"; "children"; "connect"; "deleteLater"; "destroyed";
   "disconnect"; "emit"; "event"; "eventFilter"; "findChild"; "inherits";
   "killTimer"; "metaObject"; "moveToThread"; "objectName"; "parent";
   "property"; "sender"; "setObjectName"; "setParent"; "setProperty";
   "signalsBlocked"; "startTimer"; "thread"; "tr"].

(** The process together with what [createServer] touches: the manager's
    attribute [server], which does not exist before the first
    [createServer], and the threads of the thread manager, each with the
    mark of having been started. *)
Record host : Type := mkHost {
  proc : process;
  server : option RPyCServer;
  threads : list (string * bool);
}.

Definition in_process {A} (m : py process A) : py host A :=
  fun h => match m (proc h) with
           | Returned a p => Returned a (mkHost p (server h) (threads h))
           | Raised e p => Raised e (mkHost p (server h) (threads h))
           end.

(** Modelled from the spec: [ThreadManager.newThread] of the host
    application is not among the sources; it is the "thread/worker-context
    provider" of section 6 and hands out a new worker context under the
    name asked for. *)
Definition newThread (name : string) : py host string :=
  fun h => Returned name (mkHost (proc h) (server h) (threads h ++ [(name, false)])).

(** [thread.start()] *)
Definition start (name : string) : py host unit :=
  modify (fun h =>
    mkHost (proc h) (server h)
      (map (fun t => if String.eqb t.1 name then (t.1, true) else t) (threads h))).

(** [self.server.moveToThread(thread)] *)
Definition moveToThread (name : string) : py host unit :=
  fun h => match server h with
           | Some s =>
               Returned tt
                 (mkHost (proc h)
                    (Some (mkRPyCServer (serviceClass s) (port s) (Some name)))
                    (threads h))
           | None => Raised (AttributeError "RemoteObjectManager" "server") h
           end.

Definition createServer (self : RemoteObjectManager) (port : Z) : py host unit :=
  let* thread := newThread "rpyc-server" in
  exec modify (fun h =>
         mkHost (proc h)
           (Some (mkRPyCServer (makeRemoteService self) port None))
           (threads h)) in
  exec moveToThread thread in
  exec start thread in
  in_process
    (Remote.logMsg
       ("Started module server at " +:+ hostname self
        +:+ " on port " +:+ pretty port) status).

(** [self.server.close]: the attribute lookup on the [RPyCServer] *)
Definition server_getattr (name : string) : py host unit :=
  if bool_decide (name ∈ RPyCServer_attrs) then ret tt
  else raise (AttributeError "RPyCServer" name).

Definition stopServer (self : RemoteObjectManager) : py host unit :=
  let* s := gets server in
  match s with
  | Some _ => server_getattr "close"
  | None => ret tt
  end.

End Serving.

(** ** logic/generic_logic.py: the thread of a module *)

Module LogicThreads.

(** An entry of the thread manager's [_threads] dictionary, with its
    [thread] attribute. *)
Record thread_entry : Type := mkEntry { thread : nat }.

(** The outcome of a dictionary subscript. *)
Inductive subscript (A : Type) : Type :=
| Found (a : A)
| KeyError (key : string).
Arguments Found {A} a.
Arguments KeyError {A} key.

(** [getModuleThread], given the [_threads] of the manager's thread
    manager *)
Definition getModuleThread (_threads : gmap string thread_entry)
    (self : Logic.GenericLogic) : subscript nat :=
  let key := "mod-logic-" +:+ Logic._name self in
  match _threads !! key with
  | Some entry => Found (thread entry)
  | None => KeyError key
  end.

End LogicThreads.

(** ** gui/pulsed/pulsed_measurement_gui.py: the tau vector *)

Module Pulsed.

(** The number of elements of [range(start, stop, step)] for a non-zero
    [step], as the interpreter computes it. *)
Definition range_length (start stop step : Z) : Z :=
  if 0 <? step then
    if start <? stop then (stop - start - 1) / step + 1 else 0
  else
    if stop <? start then (start - stop - 1) / (- step) + 1 else 0.

(** [list(range(start, stop, step))] *)
Definition range (start stop step : Z) : exn + list Z :=
  if step =? 0 then inl (ValueError "range() arg 3 must not be zero")
  else inr (map (fun i : nat => start + Z.of_nat i * step)
              (seq 0 (Z.to_nat (range_length start stop step)))).

(** Whether a Python integer is a value of numpy's signed 64-bit type. *)
Definition fits_int64 (z : Z) : bool := (- 2 ^ 63 <=? z) && (z <? 2 ^ 63).

(** What [np.array] makes of a sequence of Python integers.  When every
    element is a signed 64-bit value the array holds exactly these
    integers, in order.  Otherwise numpy falls back on another element
    type (unsigned, floating point or object), and what the entries then
    are is not part of this model.  Memory is taken to suffice. *)
Inductive ndarray : Type :=
| ExactArray (entries : list Z)
| OtherArray.

Definition np_array (elements : list Z) : ndarray :=
  if forallb fits_int64 elements then ExactArray elements else OtherArray.

(** The value that line 228 of [seq_parameters_changed] computes for
    [tau_vector] from the three integers the method has read:
    [np.array(range(tau_start, tau_start + tau_incr*laser_num, tau_incr))]. *)
Definition tau_vector (laser_num tau_start tau_incr : Z) : exn + ndarray :=
  match range tau_start (tau_start + tau_incr * laser_num) tau_incr with
  | inl e => inl e
  | inr elements => inr (np_array elements)
  end.

End Pulsed.

(** ** More sample states *)

Module MoreSamples.
Import Models.

(** A task as the constructor leaves it, with the two attributes added by
    hand that [_run] reads and the constructor does not set. *)
Definition patched_task (function : Logic.pyval) : Logic.InterruptableTask :=
  final_state
    ((exec Logic.setattr "function" function in
      Logic.setattr "kwargs" (Logic.VDict []))
       (Logic.new_task (Logic.VStr "scan") function (Logic.VList [])
          (Logic.VDict []))).

(** The same, holding a [pausefunction] attribute already. *)
Definition pausable_task (old : Logic.pyval) : Logic.InterruptableTask :=
  final_state
    (Logic.setattr "pausefunction" old
       (patched_task (Logic.VFunc Logic.Returns))).

(** A task whose work callable is its own bound [makeInterruptable],
    with two callables as arguments. *)
Definition self_marking_task : Logic.InterruptableTask :=
  final_state
    ((exec Logic.setattr "function" (Logic.VMethod "makeInterruptable") in
      Logic.setattr "args"
        (Logic.VList [Logic.VFunc Logic.Returns; Logic.VFunc Logic.Returns]))
       (pausable_task (Logic.VFunc Logic.Returns))).

(** A task whose work callable is its own bound [_pause]. *)
Definition self_calling_task : Logic.InterruptableTask :=
  final_state
    ((exec Logic.setattr "function" (Logic.VMethod "_pause") in
      Logic.setattr "args" (Logic.VList [Logic.VNone]))
       (patched_task (Logic.VFunc Logic.Returns))).

Definition host0 : Serving.host := Serving.mkHost Samples.process0 None [].

(** Registering the tasks of a list one after the other, through one
    instance; the codes returned, in order. *)
Fixpoint register_all (cls : Logic.GenericLogic_class) (self : Logic.GenericLogic)
    (tasks : list Logic.task_ref) : py Logic.world (list Z) :=
  match tasks with
  | [] => ret []
  | task :: rest =>
      let* code := Logic.registerTask cls self task in
      let* codes := register_all cls self rest in
      ret (code :: codes)
  end.

(** A URL without a port. *)
Definition mk_url_noport (scheme host name : string) : string :=
  scheme +:+ "://" +:+ host +:+ "/" +:+ name.

End MoreSamples.

(** ** Notions for the properties of the callbacks *)

Module Frames.
Import Logic.

(** The attributes that the methods of class [InterruptableTask] write
    after construction. *)
Definition written : list string :=
  ["result"; "pausefunction"; "resumefuncion"; "interruptable"].

(** [t'] is [t] up to the log and the written attributes: the transition
    map, the emitted signals and every other attribute are the same, and
    [result] is what it was or a fresh [TaskResult]. *)
Definition framed (t t' : InterruptableTask) : Prop :=
  (_map t' = _map t) /\
  (emitted t' = emitted t) /\
  (forall k, k ∉ written -> attrs t' !! k = attrs t !! k) /\
  ((attrs t' !! "result" = attrs t !! "result")
   \/ (attrs t' !! "result" = Some TaskResult_init)).


(** The one of the three callbacks that run the guarded block. *)
Definition runs_guarded_block (v : pyval) : bool :=
  match v with
  | VMethod m =>
      String.eqb m "_run" || String.eqb m "_pause" || String.eqb m "_resume"
  | _ => false
  end.

(** What the induction on the depth of calls carries: the guarded block
    keeps the frame, and it raises when [function] is one of the
    callbacks that run the guarded block themselves. *)
Definition block_ok (depth : nat) : Prop :=
  forall t,
    framed t (final_state (guarded_work_body (call depth) t)) /\
    (forall f, lookup_attr t "function" = Some f ->
       runs_guarded_block f = true ->
       is_Some (raised (guarded_work_body (call depth) t))).

End Frames.

(** * [DictTableModel.add] on a fresh and on a taken key *)

Section AddFacts.
Import Models.
Context {V : Type}.

Lemma add_fresh_key (key : string) (data : V) (d : DictTableModel V) :
  storage d !! key = None ->
  add key data d
  = (Some key, mkDict (dict_headers d) (<[key := data]> (storage d))).
Proof. intros Hk. unfold add. by rewrite Hk. Qed.

Lemma add_fresh_lookup (key : string) (data : V) (d : DictTableModel V) :
  storage d !! key = None ->
  storage (snd (add key data d)) !! key = Some data.
Proof.
  intros Hk. rewrite (add_fresh_key _ _ _ Hk). cbn [snd storage].
  apply lookup_insert_eq.
Qed.


End AddFacts.

(** * Properties of core/remote.py *)

Section RemoteRegistry.
Import Models Remote.

Variables (self : RemoteObjectManager) (p : process) (d : DictTableModel pyobj).
Hypothesis Hd : dicts p !! sharedModules self = Some d.

Lemma read_shared : read_dict (sharedModules self) p = Returned d p.
Proof using Hd. unfold read_dict. by rewrite Hd. Qed.

(** What [shareModule] leaves behind: the table that [add] gives.  The
    warning appears exactly when [n] was bound before. *)
Lemma shareModule_runs (n : string) (o : pyobj) :
  shareModule self n o p =
  Returned tt
    (mkProcess (<[sharedModules self := snd (add n o d)]> (dicts p))
       (lists p)
       ((if decide (is_Some (storage d !! n))
         then log p ++ [LogEntry warning ("Module " +:+ n +:+ " already shared.")]
         else log p)
        ++ [LogEntry status ("Shared module " +:+ n +:+ ".")])).
Proof using Hd.
  unfold shareModule, bind. rewrite read_shared.
  destruct (decide (is_Some (storage d !! n))); reflexivity.
Qed.

(** What [unshareModule] leaves behind: the table without [n].  The error
    message appears exactly when [n] was bound before. *)
Lemma unshareModule_runs (n : string) :
  unshareModule self n p =
  Returned tt
    (mkProcess (<[sharedModules self := snd (pop n d)]> (dicts p))
       (lists p)
       (if decide (is_Some (storage d !! n))
        then log p ++ [LogEntry error ("Module " +:+ n +:+ " was not shared.")]
        else log p)).
Proof using Hd.
  unfold unshareModule, bind. rewrite read_shared.
  destruct (decide (is_Some (storage d !! n))); reflexivity.
Qed.

End RemoteRegistry.

Section RemoteClaims.
Import Models Remote.

(** The dispatch path on a table that is there: the object under [name],
    or [None] and one more error in the log. *)
Lemma exposed_getModule_runs (svc : RemoteModuleService) (name : string)
    (p : process) (d : DictTableModel pyobj) :
  dicts p !! modules svc = Some d ->
  exposed_getModule svc name p =
  match storage d !! name with
  | Some o => Returned o p
  | None =>
      Returned PyNone
        (mkProcess (dicts p) (lists p)
           (log p ++ [LogEntry error "Client requested a module that is not shared."]))
  end.
Proof.
  intros Hd. unfold exposed_getModule, bind, read_dict. rewrite Hd.
  destruct (storage d !! name); reflexivity.
Qed.




(** C4. A [getModule] request for a name that is not in the registry
    logs an error and returns [None]; for a name that is there it
    returns the shared object.  Either way the call returns: no
    exception leaves the service. *)
Theorem getModule_request (svc : RemoteModuleService) (name : string)
    (p : process) (d : DictTableModel pyobj) :
  dicts p !! modules svc = Some d ->
  (storage d !! name = None ->
   exposed_getModule svc name p =
   Returned PyNone
     (mkProcess (dicts p) (lists p)
        (log p ++ [LogEntry error "Client requested a module that is not shared."]))) /\
  (forall o, storage d !! name = Some o ->
   exposed_getModule svc name p = Returned o p).
Proof.
  intros Hd. split.
  - intros Hn. rewrite (exposed_getModule_runs _ _ _ _ Hd), Hn. reflexivity.
  - intros o Hn. rewrite (exposed_getModule_runs _ _ _ _ Hd), Hn. reflexivity.
Qed.

Lemma getModule_request_witness :
  let svc := makeRemoteService Samples.manager0 in
  let p := Samples.server_process in
  exposed_getModule svc "zz" p =
    Returned PyNone
      (mkProcess (dicts p) (lists p)
         (log p ++ [LogEntry error "Client requested a module that is not shared."])) /\
  exposed_getModule svc "ab" p = Returned (PyRef 7) p.
Proof.
  intros svc p.
  destruct (getModule_request svc "zz" p
              (mkDict ["Shared Modules"] {[ "ab" := PyRef 7 ]})) as [Habsent _];
    [vm_compute; reflexivity|].
  destruct (getModule_request svc "ab" p
              (mkDict ["Shared Modules"] {[ "ab" := PyRef 7 ]})) as [_ Hpresent];
    [vm_compute; reflexivity|].
  split.
  - apply Habsent. vm_compute. reflexivity.
  - apply Hpresent. vm_compute. reflexivity.
Defined.

(** C6. What [unshareModule] does on a table that is there.  It returns
    and leaves the table without [n] (unchanged if [n] was not in it).
    The "was not shared" error is logged when [n] WAS shared, and
    nothing is logged when [n] was not: the test before the message is
    the one of [shareModule], without the negation the message calls
    for. *)
Theorem unshareModule_diagnostic (self : RemoteObjectManager) (n : string)
    (p : process) (d : DictTableModel pyobj) :
  dicts p !! sharedModules self = Some d ->
  exists p',
    unshareModule self n p = Returned tt p' /\
    dicts p' !! sharedModules self
      = Some (mkDict (dict_headers d) (delete n (storage d))) /\
    (storage d !! n = None ->
       log p' = log p /\ delete n (storage d) = storage d) /\
    (is_Some (storage d !! n) ->
       log p' =
       (log p ++ [LogEntry error ("Module " +:+ n +:+ " was not shared.")])%list).
Proof.
  intros Hd. eexists. split; [by apply unshareModule_runs|].
  simpl. split; [by rewrite lookup_insert_eq|]. split.
  - intros Hn. rewrite Hn. split; [|by apply delete_id].
    destruct (decide (is_Some (@None pyobj))) as [[? ?]|]; done.
  - intros Hn. destruct (decide (is_Some (storage d !! n))); done.
Qed.

Lemma unshareModule_diagnostic_witness :
  exists p',
    unshareModule Samples.manager0 "x" Samples.process0 = Returned tt p' /\
    log p' = [] /\
    dicts p' = dicts Samples.process0.
Proof.
  destruct (unshareModule_diagnostic Samples.manager0 "x" Samples.process0
              (mkDict ["Shared Modules"] ∅)) as (p' & Hrun & Hd' & Habsent & _);
    [vm_compute; reflexivity|].
  exists p'. split; [exact Hrun|].
  destruct Habsent as [Hlog _]; [vm_compute; reflexivity|].
  split; [exact Hlog|].
  revert Hrun. vm_compute. intros [= <-]. reflexivity.
Defined.

(** C8. A client that asks a reachable server for a name the server's
    table does not hold gets [None] back as the proxy: the call returns,
    the handle appended to the client's listing carries the empty proxy,
    and the server has logged the connection and the failed request. *)
Theorem getRemoteModule_not_shared (self : RemoteObjectManager)
    (host : option string) (port : option Z) (name : string)
    (n : net) (q : peer) (d : DictTableModel pyobj)
    (l : ListTableModel RemoteModule) :
  peers n !! (host, port) = Some q ->
  dicts (remote q) !! modules (serviceClass q) = Some d ->
  storage d !! name = None ->
  lists (local n) !! remoteModules self = Some l ->
  exists n',
    getRemoteModule self host port name n = Returned PyNone n' /\
    lists (local n') !! remoteModules self
      = Some (append (mkRemoteModule (host, port) PyNone name) l) /\
    (exists q', peers n' !! (host, port) = Some q' /\
       log (remote q') =
       (log (remote q)
          ++ [LogEntry status "Client connected!";
              LogEntry error "Client requested a module that is not shared."])%list).
Proof.
  intros Hq Hd Hname Hl.
  unfold getRemoteModule, RemoteModule_init, rpyc_connect, bind, on_peer,
    on_connect, locally, ret. simpl.
  rewrite Hq. simpl. rewrite lookup_insert_eq. simpl.
  erewrite exposed_getModule_runs; last exact Hd.
  rewrite Hname. simpl.
  unfold read_list, write_list, modify. simpl. rewrite Hl. simpl.
  eexists. split; [reflexivity|]. simpl. split.
  - by rewrite lookup_insert_eq.
  - eexists. split; [by rewrite lookup_insert_eq|].
    simpl. by rewrite <- app_assoc.
Qed.

Lemma getRemoteModule_not_shared_witness :
  exists n',
    getRemoteModule Samples.manager0 (Some "host") (Some 1234) "a/b"
      Samples.network0 = Returned PyNone n' /\
    lists (local n') !! remoteModules Samples.manager0
      = Some (mkList ["Remote Modules"]
                [mkRemoteModule (Some "host", Some 1234) PyNone "a/b"]).
Proof.
  destruct (getRemoteModule_not_shared Samples.manager0
              (Some "host") (Some 1234) "a/b" Samples.network0
              (mkPeer (makeRemoteService Samples.manager0) Samples.server_process)
              (mkDict ["Shared Modules"] {[ "ab" := PyRef 7 ]})
              (mkList ["Remote Modules"] []))
    as (n' & Hrun & Hlist & _);
    [vm_compute; reflexivity ..|].
  exists n'. split; [exact Hrun|exact Hlist].
Defined.

End RemoteClaims.

(** * Properties of URL addressing *)

Section UrlFacts.
Import Url.

Lemma forall_chars_app (P : ascii -> bool) (a b : string) :
  forall_chars P (a +:+ b) = forall_chars P a && forall_chars P b.
Proof.
  induction a as [|c a IH]; simpl; [reflexivity|].
  rewrite IH. by rewrite andb_assoc.
Qed.

Lemma forall_chars_impl (P Q : ascii -> bool) (s : string) :
  (forall c, P c = true -> Q c = true) ->
  forall_chars P s = true -> forall_chars Q s = true.
Proof.
  intros HPQ. induction s as [|c s IH]; simpl; [done|].
  intros [Hc Hs]%andb_true_iff. rewrite (HPQ _ Hc). by apply IH.
Qed.

(** [partition] finds the first separator behind a prefix free of it. *)
Lemma partition_app (c : ascii) (a b : string) :
  forall_chars (fun x => negb (Ascii.eqb x c)) a = true ->
  partition c (a +:+ String c b) = (a, true, b).
Proof.
  induction a as [|x a IH]; simpl.
  - intros _. by rewrite Ascii.eqb_refl.
  - intros [Hx Ha]%andb_true_iff.
    apply negb_true_iff in Hx. rewrite Hx, (IH Ha). reflexivity.
Qed.

Lemma partition_absent (c : ascii) (s : string) :
  forall_chars (fun x => negb (Ascii.eqb x c)) s = true ->
  partition c s = (s, false, EmptyString).
Proof.
  induction s as [|x s IH]; simpl; [done|].
  intros [Hx Hs]%andb_true_iff.
  apply negb_true_iff in Hx. rewrite Hx, (IH Hs). reflexivity.
Qed.

Lemma split_last_absent (c : ascii) (s : string) :
  forall_chars (fun x => negb (Ascii.eqb x c)) s = true ->
  split_last c s = None.
Proof.
  induction s as [|x s IH]; simpl; [done|].
  intros [Hx Hs]%andb_true_iff.
  apply negb_true_iff in Hx. rewrite (IH Hs), Hx. reflexivity.
Qed.

Lemma contains_absent (c : ascii) (s : string) :
  forall_chars (fun x => negb (Ascii.eqb x c)) s = true ->
  contains c s = false.
Proof. unfold contains. by intros ->. Qed.

Lemma break_app (P : ascii -> bool) (a : string) (c : ascii) (b : string) :
  forall_chars (fun x => negb (P x)) a = true ->
  P c = true ->
  break P (a +:+ String c b) = (a, String c b).
Proof.
  intros Ha Hc. induction a as [|x a IH]; simpl.
  - by rewrite Hc.
  - simpl in Ha. apply andb_true_iff in Ha as [Hx Ha].
    apply negb_true_iff in Hx. rewrite Hx, (IH Ha). reflexivity.
Qed.

Lemma remove_char_absent (c : ascii) (s : string) :
  forall_chars (fun x => negb (Ascii.eqb x c)) s = true ->
  remove_char c s = s.
Proof.
  induction s as [|x s IH]; simpl; [done|].
  intros [Hx Hs]%andb_true_iff.
  apply negb_true_iff in Hx. rewrite Hx, (IH Hs). reflexivity.
Qed.

(** Character classes, settled by running through the 256 characters. *)
Lemma scheme_char_not_colon (c : ascii) :
  is_scheme_char c = true -> negb (Ascii.eqb c ":") = true.
Proof. destruct c as [[] [] [] [] [] [] [] []]; vm_compute; congruence. Qed.

Lemma digit_is_host_char (c : ascii) :
  is_digit c = true -> Samples.is_host_char c = true.
Proof. destruct c as [[] [] [] [] [] [] [] []]; vm_compute; congruence. Qed.

Lemma host_char_not (x : ascii) (c : ascii) :
  In x ["/"; "?"; "#"; ":"; "@"; "["; "]"]%char ->
  Samples.is_host_char c = true -> negb (Ascii.eqb c x) = true.
Proof.
  intros Hx. unfold Samples.is_host_char.
  simpl in Hx.
  repeat (destruct Hx as [<-|Hx];
          [intros H; apply negb_true_iff in H;
           repeat (apply orb_false_iff in H as [H ?]);
           apply negb_true_iff; assumption|]).
  destruct Hx.
Qed.

Lemma host_char_not_netloc_end (c : ascii) :
  Samples.is_host_char c = true -> negb (is_netloc_end c) = true.
Proof. destruct c as [[] [] [] [] [] [] [] []]; vm_compute; congruence. Qed.

Lemma name_char_not (x : ascii) (c : ascii) :
  In x ["?"; "#"; ";"]%char ->
  Samples.is_name_char c = true -> negb (Ascii.eqb c x) = true.
Proof.
  intros Hx. unfold Samples.is_name_char.
  simpl in Hx.
  repeat (destruct Hx as [<-|Hx];
          [intros H; apply negb_true_iff in H;
           repeat (apply orb_false_iff in H as [H ?]);
           apply negb_true_iff; assumption|]).
  destruct Hx.
Qed.

Lemma string_app_assoc (a b c : string) : (a +:+ b) +:+ c = a +:+ (b +:+ c).
Proof.
  induction a as [|x a IH]; [reflexivity|].
  change (String x ((a +:+ b) +:+ c) = String x (a +:+ (b +:+ c))).
  f_equal. exact IH.
Qed.

Lemma digits_value_nonneg (s : string) (acc : Z) :
  0 <= acc -> forall_chars is_digit s = true -> 0 <= digits_value acc s.
Proof.
  revert acc. induction s as [|c s IH]; simpl; intros acc Hacc; [done|].
  intros [Hc Hs]%andb_true_iff. apply IH; [|done].
  unfold is_digit in Hc. apply andb_true_iff in Hc as [Hlo _].
  apply Nat.leb_le in Hlo. lia.
Qed.

Lemma int10_Some (s : string) (v : Z) :
  int10 s = Some v ->
  s <> EmptyString /\ forall_chars is_digit s = true /\ 0 <= v.
Proof.
  unfold int10. destruct s as [|c s]; [done|].
  destruct (forall_chars is_digit (String c s)) eqn:Hd; [|done].
  intros [= <-]. split; [done|]. split; [done|].
  apply (digits_value_nonneg (String c s) 0); [lia|exact Hd].
Qed.

Section WellFormedUrl.
Variables (sch host prt name : string) (pn : Z).
Hypothesis Hsch_ne : sch <> EmptyString.
Hypothesis Hsch : forall_chars is_scheme_char sch = true.
Hypothesis Hhost_ne : host <> EmptyString.
Hypothesis Hhost : forall_chars Samples.is_host_char host = true.
Hypothesis Hport : int10 prt = Some pn.
Hypothesis Hname : forall_chars Samples.is_name_char name = true.

Lemma port_host_chars : forall_chars Samples.is_host_char prt = true.
Proof using Hport.
  destruct (int10_Some _ _ Hport) as (_ & Hd & _).
  eapply forall_chars_impl; [apply digit_is_host_char|exact Hd].
Qed.

Lemma host_free_of (x : ascii) :
  In x ["/"; "?"; "#"; ":"; "@"; "["; "]"]%char ->
  forall_chars (fun c => negb (Ascii.eqb c x)) host = true.
Proof using Hhost.
  intros Hx.
  eapply forall_chars_impl; [intros c; apply (host_char_not x c Hx)|exact Hhost].
Qed.

Lemma port_free_of (x : ascii) :
  In x ["/"; "?"; "#"; ":"; "@"; "["; "]"]%char ->
  forall_chars (fun c => negb (Ascii.eqb c x)) prt = true.
Proof using Hport.
  intros Hx.
  eapply forall_chars_impl;
    [intros c; apply (host_char_not x c Hx)|apply port_host_chars].
Qed.

Lemma loc_free_of (x : ascii) :
  In x ["/"; "?"; "#"; "@"; "["; "]"]%char ->
  forall_chars (fun c => negb (Ascii.eqb c x)) (host +:+ ":" +:+ prt) = true.
Proof using Hhost Hport.
  intros Hx. rewrite !forall_chars_app.
  assert (Hx' : In x ["/"; "?"; "#"; ":"; "@"; "["; "]"]%char)
    by (simpl in *; tauto).
  rewrite (host_free_of x Hx'), (port_free_of x Hx'). simpl.
  rewrite andb_true_r.
  simpl in Hx.
  repeat (destruct Hx as [<-|Hx]; [reflexivity|]). destruct Hx.
Qed.

Lemma name_free_of (x : ascii) :
  In x ["?"; "#"; ";"]%char ->
  forall_chars (fun c => negb (Ascii.eqb c x)) name = true.
Proof using Hname.
  intros Hx.
  eapply forall_chars_impl; [intros c; apply (name_char_not x c Hx)|exact Hname].
Qed.

(** The six components [urlparse] finds in a well-formed URL. *)
Lemma urlparse_well_formed :
  urlparse (Samples.mk_url sch host prt name) =
  inr (mkParseResult (lower sch) (host +:+ ":" +:+ prt) (String "/" name)
         EmptyString EmptyString EmptyString).
Proof using Hsch_ne Hsch Hhost Hport Hname.
  unfold urlparse, urlsplit, Samples.mk_url.
  change ("://" +:+ host +:+ ":" +:+ prt +:+ "/" +:+ name)
    with (String ":" (String "/" (String "/"
            (host +:+ ":" +:+ prt +:+ "/" +:+ name)))).
  rewrite partition_app;
    last by (eapply forall_chars_impl; [apply scheme_char_not_colon|exact Hsch]).
  destruct sch as [|c0 s0]; [done|].
  rewrite Hsch. cbn [forall_chars is_digit andb split_netloc].
  replace (host +:+ ":" +:+ prt +:+ "/" +:+ name)
    with ((host +:+ ":" +:+ prt) +:+ String "/" name)
    by (rewrite !string_app_assoc; reflexivity).
  change (is_digit "/") with false. cbn [andb]. unfold split_netloc.
  rewrite break_app; [| |reflexivity]; last first.
  { rewrite !forall_chars_app.
    rewrite (forall_chars_impl _ _ host host_char_not_netloc_end Hhost).
    rewrite (forall_chars_impl _ _ prt host_char_not_netloc_end port_host_chars).
    reflexivity. }
  rewrite !contains_absent by (apply loc_free_of; simpl; tauto).
  cbn [andb orb negb].
  rewrite (partition_absent "#" (String "/" name))
    by (simpl; apply name_free_of; simpl; tauto).
  rewrite (partition_absent "?" (String "/" name))
    by (simpl; apply name_free_of; simpl; tauto).
  rewrite (contains_absent ";" (String "/" name))
    by (simpl; apply name_free_of; simpl; tauto).
  rewrite andb_false_r. reflexivity.
Qed.

Lemma hostinfo_well_formed (r : ParseResult) :
  netloc r = (host +:+ ":" +:+ prt) -> _hostinfo r = (host, Some prt).
Proof using Hhost Hport.
  intros Hr. unfold _hostinfo, rpartition. rewrite Hr.
  rewrite split_last_absent by (apply loc_free_of; simpl; tauto).
  rewrite (partition_absent "[" (host +:+ ":" +:+ prt))
    by (apply loc_free_of; simpl; tauto).
  change (":" +:+ prt) with (String ":" prt).
  rewrite partition_app by (apply host_free_of; simpl; tauto).
  reflexivity.
Qed.

End WellFormedUrl.

End UrlFacts.

Section UrlClaims.
Import Models Remote Url.

(** C9, as stated, fails on a path with an inner slash: for
    [rpyc://host:1234/a/b] the path is [/a/b], which without its leading
    slash is [a/b], but the module requested is [ab]. *)
Lemma inner_slash_not_as_specified :
  ~ Samples.resolves_as_specified Samples.manager0
      (Samples.mk_url "rpyc" "host" "1234" "a/b") Samples.network0.
Proof.
  intros (r & host & port & Hr & Hhost & Hport & Hcall).
  vm_compute in Hr. injection Hr as <-.
  vm_compute in Hhost. subst host.
  vm_compute in Hport. injection Hport as <-.
  vm_compute in Hcall. discriminate Hcall.
Qed.

(** C9, amended.  For a URL [scheme://host:port/name] whose scheme is
    made of scheme characters, whose host is free of [/?#:@[]], whose port
    is a decimal numeral up to 65535 and whose name is free of [?#;], the
    path is [/name] and the call is the one to [getRemoteModule] with the
    host in lower case, the port as a number and the name with EVERY
    slash removed; that name is the path without its leading slash
    exactly when the name has no slash of its own. *)
Theorem getRemoteModuleUrl_resolves (self : RemoteObjectManager)
    (sch host prt name : string) (pn : Z) (n : net) :
  sch <> EmptyString ->
  forall_chars is_scheme_char sch = true ->
  host <> EmptyString ->
  forall_chars Samples.is_host_char host = true ->
  int10 prt = Some pn ->
  pn <= 65535 ->
  forall_chars Samples.is_name_char name = true ->
  let url := Samples.mk_url sch host prt name in
  (exists r, urlparse url = inr r /\ path r = String "/" name) /\
  getRemoteModuleUrl self url n
  = getRemoteModule self (Some (lower host)) (Some pn) (remove_char "/" name) n /\
  (remove_char "/" name = Samples.strip_leading_slash (String "/" name)
   <-> contains "/" name = false).
Proof.
  intros Hsch_ne Hsch Hhost_ne Hhost Hport Hrange Hname url.
  pose proof (urlparse_well_formed sch host prt name pn
                Hsch_ne Hsch Hhost Hport Hname) as Hparse.
  split; [eexists; split; [exact Hparse|reflexivity]|]. split.
  - unfold getRemoteModuleUrl, bind, lift_sum. subst url. rewrite Hparse.
    unfold ret at 1. cbn [path].
    unfold hostname, port.
    rewrite (hostinfo_well_formed host prt pn Hhost Hport) by reflexivity.
    cbn [fst snd]. rewrite Hport.
    destruct (int10_Some _ _ Hport) as (_ & _ & Hnonneg).
    destruct (Z.leb_spec 0 pn); [|lia].
    destruct (Z.leb_spec pn 65535); [|lia].
    cbn [andb]. unfold ret.
    destruct host as [|h0 hs]; [done|].
    change (remove_char "/" (String "/" name)) with (remove_char "/" name).
    reflexivity.
  - cbn [Samples.strip_leading_slash]. unfold contains. split.
    + intros Heq. apply negb_false_iff.
      clear -Heq. induction name as [|c s IH]; [reflexivity|].
      simpl in *. destruct (Ascii.eqb c "/") eqn:Hc.
      * exfalso.
        assert (Hlen : forall t, (String.length (remove_char "/" t)
                                  <= String.length t)%nat).
        { clear. induction t as [|x t IHt]; simpl; [lia|].
          destruct (Ascii.eqb x "/"); simpl; lia. }
        specialize (Hlen s). rewrite Heq in Hlen. simpl in Hlen. lia.
      * simpl. injection Heq as Heq. by apply IH.
    + intros Hno. apply negb_false_iff in Hno.
      by apply remove_char_absent.
Qed.

Lemma getRemoteModuleUrl_resolves_witness :
  let url := Samples.mk_url "rpyc" "LabPC" "1234" "odmr/logic" in
  (exists r, urlparse url = inr r /\ path r = "/odmr/logic") /\
  getRemoteModuleUrl Samples.manager0 url Samples.network0
  = getRemoteModule Samples.manager0 (Some "labpc") (Some 1234) "odmrlogic"
      Samples.network0.
Proof.
  intros url.
  destruct (getRemoteModuleUrl_resolves Samples.manager0
              "rpyc" "LabPC" "1234" "odmr/logic" 1234 Samples.network0)
    as (Hpath & Hcall & _);
    [done|reflexivity|done|reflexivity|reflexivity|lia|reflexivity|].
  split; [exact Hpath|exact Hcall].
Defined.

End UrlClaims.

(** * Properties of logic/generic_logic.py *)

Section TaskRegistry.
Import Models Logic.

Lemma registerTask_runs (cls : GenericLogic_class) (self : GenericLogic)
    (task : task_ref) (w : world) (d : DictTableModel task_ref) :
  tables w !! _tasks cls = Some d ->
  registerTask cls self task w =
  match storage d !! task_name task with
  | Some _ =>
      Returned (-1)
        (mkWorld (tables w) (mutexes w)
           (messages w
            ++ [LogEntry error
                  ("Could not register task " +:+ task_name task
                   +:+ " because a task is already registered with this name.")]))
  | None =>
      Returned 0
        (mkWorld
           (<[_tasks cls :=
                mkDict (dict_headers d) (<[task_name task := task]> (storage d))]>
              (tables w))
           (mutexes w) (messages w))
  end.
Proof.
  intros Hd. unfold registerTask, bind, read_table, add.
  rewrite Hd. destruct (storage d !! task_name task) as [first|]; [|reflexivity].
  unfold write_table, modify, logMsg, ret. cbn [tables mutexes messages].
  by rewrite (insert_id _ _ _ Hd).
Qed.

(** C5. Registering a task under a name that is taken reports an error,
    returns -1 and leaves every table as it was, so the name still
    leads to the first task; registering under a fresh name returns 0,
    reports nothing and binds the name to the task. *)
Theorem registerTask_duplicate_rejected (cls : GenericLogic_class)
    (self : GenericLogic) (task : task_ref) (w : world)
    (d : DictTableModel task_ref) :
  tables w !! _tasks cls = Some d ->
  (forall first, storage d !! task_name task = Some first ->
     exists w',
       registerTask cls self task w = Returned (-1) w' /\
       tables w' = tables w /\
       tasks_seen_by cls self w' = Some (storage d) /\
       messages w' =
       (messages w
        ++ [LogEntry error
              ("Could not register task " +:+ task_name task
               +:+ " because a task is already registered with this name.")])%list) /\
  (storage d !! task_name task = None ->
     exists w',
       registerTask cls self task w = Returned 0 w' /\
       tasks_seen_by cls self w'
       = Some (<[task_name task := task]> (storage d)) /\
       messages w' = messages w).
Proof.
  intros Hd. split.
  - intros first Hfirst. eexists.
    rewrite (registerTask_runs _ _ _ _ _ Hd), Hfirst.
    split; [reflexivity|]. cbn [tables messages]. split; [reflexivity|].
    split; [|reflexivity]. unfold tasks_seen_by. cbn [tables]. by rewrite Hd.
  - intros Hfresh. eexists.
    rewrite (registerTask_runs _ _ _ _ _ Hd), Hfresh.
    split; [reflexivity|]. split; [|reflexivity].
    unfold tasks_seen_by. cbn [tables]. by rewrite lookup_insert_eq.
Qed.

Lemma registerTask_duplicate_rejected_witness :
  let first := mkTaskRef 1 "scan" in
  let second := mkTaskRef 2 "scan" in
  (exists w',
      registerTask Samples.logic_class Samples.logic_b second Samples.world1
      = Returned (-1) w' /\
      tasks_seen_by Samples.logic_class Samples.logic_b w'
      = Some {[ "scan" := first ]}) /\
  (exists w',
      registerTask Samples.logic_class Samples.logic_a first Samples.world0
      = Returned 0 w' /\
      tasks_seen_by Samples.logic_class Samples.logic_a w'
      = Some {[ "scan" := first ]}).
Proof.
  intros first second. split.
  - destruct (registerTask_duplicate_rejected Samples.logic_class
                Samples.logic_b second Samples.world1
                (mkDict ["Name"] {[ "scan" := first ]})) as [Hdup _];
      [vm_compute; reflexivity|].
    destruct (Hdup first) as (w' & Hrun & _ & Hseen & _);
      [vm_compute; reflexivity|].
    exists w'. split; [exact Hrun|exact Hseen].
  - destruct (registerTask_duplicate_rejected Samples.logic_class
                Samples.logic_a first Samples.world0
                (mkDict ["Name"] ∅)) as [_ Hfresh];
      [vm_compute; reflexivity|].
    destruct Hfresh as (w' & Hrun & Hseen & _); [vm_compute; reflexivity|].
    exists w'. split; [exact Hrun|]. rewrite Hseen. vm_compute. reflexivity.
Defined.

(** C10. [_tasks] is one table, made when the class body runs, and every
    instance reads it through the class: a task registered through one
    instance is seen through any other.  The lock is made by
    [__init__], so two instances hold two different locks. *)
Theorem tasks_shared_lock_per_instance (w0 : world) (name_a name_b : string)
    (task : task_ref) :
  exists cls w1 a w2 b w3 w4,
    GenericLogic_class_body w0 = Returned cls w1 /\
    GenericLogic_init name_a w1 = Returned a w2 /\
    GenericLogic_init name_b w2 = Returned b w3 /\
    taskLock a <> taskLock b /\
    registerTask cls a task w3 = Returned 0 w4 /\
    (forall other : GenericLogic,
       tasks_seen_by cls other w4 = Some {[ task_name task := task ]}).
Proof.
  unfold GenericLogic_class_body, GenericLogic_init, Mutex, bind, gets, ret,
    write_table, modify.
  do 7 eexists. split; [reflexivity|]. split; [reflexivity|].
  split; [reflexivity|]. cbn [taskLock mutexes]. split; [lia|].
  split.
  - erewrite registerTask_runs; last by (cbn [tables _tasks]; apply lookup_insert_eq).
    cbn [storage DictTableModel_new]. rewrite lookup_empty. reflexivity.
  - intros other. unfold tasks_seen_by. cbn [tables _tasks].
    rewrite lookup_insert_eq. cbn. rewrite insert_empty. reflexivity.
Qed.

End TaskRegistry.

(** ** What a call can change *)

Section CallFrames.
Import Logic Frames.

(** [self.result.update(...)] never completes, however values are
    called: [TaskResult] defines [updata], so the attribute lookup raises
    and the task is as it was. *)
Lemma result_update_body_raises (call : caller) (data success : pyval)
    (t : InterruptableTask) :
  exists x, result_update_body call data success t = Raised x t.
Proof.
  unfold result_update_body, bind, getattr.
  destruct (lookup_attr t "result") as [r|]; [|by eauto].
  destruct r; cbn; eauto.
Qed.

(** The frame is reflexive and transitive, and holds between tasks that
    differ in the log only. *)
Lemma framed_refl (t : InterruptableTask) : framed t t.
Proof. repeat split; auto. Qed.

Lemma framed_trans (t1 t2 t3 : InterruptableTask) :
  framed t1 t2 -> framed t2 t3 -> framed t1 t3.
Proof.
  intros (Hm1 & He1 & Ha1 & Hr1) (Hm2 & He2 & Ha2 & Hr2).
  split; [congruence|]. split; [congruence|]. split.
  - intros k Hk. rewrite Ha2, Ha1 by done. done.
  - destruct Hr2 as [Hr2|Hr2]; [|by right].
    destruct Hr1 as [Hr1|Hr1]; [left|right]; congruence.
Qed.

Lemma framed_same_attrs (t t' : InterruptableTask) :
  attrs t' = attrs t -> _map t' = _map t -> emitted t' = emitted t ->
  framed t t'.
Proof. intros Ha Hm He. repeat split; auto; rewrite Ha; auto. Qed.

Lemma framed_lookup_attr (t t' : InterruptableTask) (k : string) :
  framed t t' -> k ∉ written -> lookup_attr t' k = lookup_attr t k.
Proof. intros (_ & _ & Ha & _) Hk. unfold lookup_attr. by rewrite Ha. Qed.

(** [can] and [canPause] only read. *)
Lemma can_state (ev : string) (t : InterruptableTask) :
  final_state (can ev t) = t.
Proof.
  unfold can. destruct (_map t !! ev); [|reflexivity].
  unfold bind, getattr. destruct (lookup_attr t "current"); reflexivity.
Qed.

Lemma canPause_state (t : InterruptableTask) : final_state (canPause t) = t.
Proof.
  unfold canPause, bind, getattr.
  destruct (lookup_attr t "interruptable") as [i|]; [|reflexivity].
  destruct (truthy i); [|reflexivity].
  pose proof (can_state "pause" t) as H.
  destruct (can "pause" t); cbn in *; congruence.
Qed.

(** A call of an event function raises, and the task is as it was. *)
Lemma event_not_run_state (ev : string) (t : InterruptableTask) :
  exists x, event_not_run ev t = Raised x t.
Proof.
  unfold event_not_run, bind, hasattr, gets.
  destruct (bool_decide _); [eexists; reflexivity|].
  pose proof (can_state ev t) as Hcan.
  destruct (can ev t) as [ok t1|x t1]; cbn in Hcan; subst t1;
    [|eexists; reflexivity].
  unfold getattr. destruct (lookup_attr t "current") as [cur|];
    [|eexists; reflexivity].
  destruct ok; eexists; reflexivity.
Qed.

(** A call with the keyword [msgType], as the handler makes it, leaves
    attributes, map and signals alone whatever is called: no method of
    the task takes that keyword. *)
Lemma call_with_msgType (depth : nat) (f msg v : pyval) (t : InterruptableTask) :
  attrs (final_state (call depth f [msg] [("msgType", v)] t)) = attrs t /\
  _map (final_state (call depth f [msg] [("msgType", v)] t)) = _map t /\
  emitted (final_state (call depth f [msg] [("msgType", v)] t)) = emitted t.
Proof.
  destruct depth as [|n]; [destruct f; cbn; auto|].
  destruct f as [| | | | |[|text]| |name|name| | | |]; try (cbn; by auto).
  - cbn [call callable negb]. unfold call_bound.
    repeat (match goal with
            | |- context [if String.eqb name ?s then _ else _] =>
                destruct (String.eqb name s)
            end; [cbn; by auto|]).
    cbn; auto.
  - cbn [call callable negb].
    destruct (event_not_run_state name t) as [x ->]. cbn. auto.
Qed.

(** The handler raises and leaves attributes, map and signals alone. *)
Lemma on_exception_body_frame (depth : nat) (e : exn) (t : InterruptableTask) :
  exists x t',
    on_exception_body (call depth) e t = Raised x t' /\
    attrs t' = attrs t /\ _map t' = _map t /\ emitted t' = emitted t.
Proof.
  unfold on_exception_body, bind, getattr.
  destruct (lookup_attr t "logMsg") as [l|]; [|by eauto 10].
  destruct (lookup_attr t "name") as [nm|]; [|by eauto 10].
  match goal with |- context [call depth ?f [?a] [("msgType", ?k)] t] =>
    destruct (call_with_msgType depth f a k t) as (Hattrs & Hmap & Hem);
    destruct (call depth f [a] [("msgType", k)] t) as [v t1|x t1]
  end; cbn [final_state] in *; [|by eauto 10].
  destruct (result_update_body_raises (call depth) VNone (VBool false) t1) as [x ->].
  eauto 10.
Qed.

(** [makeInterruptable] writes written attributes only. *)
Lemma makeInterruptable_framed (p r : pyval) (t : InterruptableTask) :
  framed t (final_state (makeInterruptable p r t)).
Proof.
  unfold makeInterruptable, bind, getattr.
  destruct (lookup_attr t "pausefunction") as [own|]; [|apply framed_refl].
  destruct (callable own && callable r); [|apply framed_refl].
  unfold setattr, modify. cbn. split; [done|]. split; [done|]. split.
  - intros k Hk. cbn [attrs]. rewrite !lookup_insert_ne; [done|..];
      intros <-; apply Hk; unfold written; repeat constructor.
  - left. cbn [attrs]. by rewrite !lookup_insert_ne by done.
Qed.

(** The handler, run on a task within the frame, stays within it. *)
Lemma handler_framed (depth : nat) (x : exn) (t t1 : InterruptableTask) :
  framed t t1 ->
  framed t (final_state (on_exception_body (call depth) x t1)) /\
  is_Some (raised (on_exception_body (call depth) x t1)).
Proof.
  intros Ht1.
  destruct (on_exception_body_frame depth x t1) as (y & t' & -> & Ha & Hm & He).
  cbn. split; [|by eexists].
  apply (framed_trans _ t1); [exact Ht1|by apply framed_same_attrs].
Qed.

(** One call of the work callable, given that the guarded block one
    call deeper is as [block_ok] says. *)
Lemma call_framed (n : nat) (f : pyval) (pos : list pyval)
    (kw : list (string * pyval)) (t : InterruptableTask) :
  block_ok n ->
  lookup_attr t "function" = Some f ->
  framed t (final_state (call (S n) f pos kw t)) /\
  (runs_guarded_block f = true -> is_Some (raised (call (S n) f pos kw t))).
Proof.
  intros IH Hf.
  destruct f as [| | | | |[|text]| |name|name| | | |];
    try (cbn; split; [apply framed_refl|discriminate]);
    [| |cbn [call callable negb];
        destruct (event_not_run_state name t) as [x ->];
        split; [apply framed_refl|discriminate]].
  - (* the logger *)
    cbn. destruct pos; cbn; (split; [|discriminate]).
    + apply framed_refl.
    + by apply framed_same_attrs.
  - (* a bound method *)
    cbn [call callable negb]. unfold call_bound.
    destruct (String.eqb_spec name "makeInterruptable") as [->|_].
    { split; [|discriminate]. unfold bind, lift_sum.
      destruct (bind_params _ _ pos kw) as [x|a]; [apply framed_refl|].
      cbn [raise ret].
      pose proof (makeInterruptable_framed (nth 0 a VNone) (nth 1 a VNone) t) as H.
      destruct (makeInterruptable _ _ t); exact H. }
    destruct (String.eqb_spec name "canPause") as [->|_].
    { split; [|discriminate]. unfold bind, lift_sum.
      destruct (bind_params _ _ pos kw) as [x|a]; [apply framed_refl|].
      cbn [raise ret]. rewrite canPause_state. apply framed_refl. }
    destruct (String.eqb_spec name "_run") as [->|_].
    { unfold bind, lift_sum.
      destruct (bind_params _ _ pos kw) as [x|a].
      { cbn. split; [apply framed_refl|intros _; eexists; reflexivity]. }
      cbn [ret]. unfold _run_body, bind, setattr, modify.
      set (t1 := mkTask _ _ _ _).
      assert (Ht1 : framed t t1).
      { subst t1. split; [done|]. split; [done|]. split.
        - intros k Hk. cbn [attrs]. rewrite lookup_insert_ne; [done|].
          intros <-. apply Hk. unfold written. repeat constructor.
        - right. cbn [attrs]. apply lookup_insert_eq. }
      destruct (IH t1) as [Hfr Hraise].
      destruct Hraise with (f := VMethod "_run") as [x Hx]; [|reflexivity|].
      { rewrite <- Hf. unfold lookup_attr. subst t1. cbn [attrs].
        by rewrite lookup_insert_ne. }
      destruct (guarded_work_body (call n) t1) as [u t2|y t2];
        [discriminate Hx|].
      cbn in *. split; [by apply (framed_trans _ t1)|intros _; eexists; reflexivity]. }
    destruct (String.eqb_spec name "_pause") as [->|_].
    { unfold bind, lift_sum.
      destruct (bind_params _ _ pos kw) as [x|a];
        [cbn; split; [apply framed_refl|intros _; eexists; reflexivity]|].
      cbn [ret]. unfold _pause_body, bind.
      destruct (IH t) as [Hfr Hraise].
      destruct (Hraise _ Hf) as [x Hx]; [reflexivity|].
      destruct (guarded_work_body (call n) t) as [u t2|y t2];
        [discriminate Hx|].
      cbn in *. split; [exact Hfr|intros _; eexists; reflexivity]. }
    destruct (String.eqb_spec name "_resume") as [->|_].
    { unfold bind, lift_sum.
      destruct (bind_params _ _ pos kw) as [x|a];
        [cbn; split; [apply framed_refl|intros _; eexists; reflexivity]|].
      cbn [ret]. unfold _resume_body, bind.
      destruct (IH t) as [Hfr _].
      destruct (guarded_work_body (call n) t) as [u t2|y t2]; cbn in *.
      - unfold getattr. destruct (lookup_attr t2 "sigResumed");
          cbn; (split; [exact Hfr|intros _; eexists; reflexivity]).
      - split; [exact Hfr|intros _; eexists; reflexivity]. }
    destruct (String.eqb_spec name "_finish") as [->|_].
    { split; [|discriminate]. unfold bind, lift_sum.
      destruct (bind_params _ _ pos kw) as [x|a]; apply framed_refl. }
    cbn. split; [apply framed_refl|].
    intros _. eexists; reflexivity.
Qed.

(** The two ways through the guarded block: the handler runs on the task
    as it was, or the work callable is called and the handler runs on
    what an exception of the call leaves. *)
Lemma guarded_work_body_cases (call : caller) (t : InterruptableTask) :
  (exists x, guarded_work_body call t = on_exception_body call x t) \/
  (exists f pos kw,
      lookup_attr t "function" = Some f /\ callable f = true /\
      guarded_work_body call t =
      match call f pos kw t with
      | Returned _ t1 => Returned tt t1
      | Raised x t1 => on_exception_body call x t1
      end).
Proof.
  unfold guarded_work_body, try_except, bind, getattr.
  destruct (lookup_attr t "function") as [f|] eqn:Hf; [|left; eexists; reflexivity].
  destruct (callable f) eqn:Hc.
  - rewrite Hf.
    destruct (lookup_attr t "args") as [a|]; [|left; eexists; reflexivity].
    destruct (lookup_attr t "kwargs") as [k|]; [|left; eexists; reflexivity].
    unfold lift_sum.
    destruct (unpack_kwargs k) as [x|kw]; [left; eexists; reflexivity|].
    destruct (unpack_args a) as [x|pos]; [left; eexists; reflexivity|].
    cbn [ret]. right. exists f, pos, kw. split; [done|]. split; [done|].
    by destruct (call f pos kw t).
  - destruct (result_update_body_raises call VNone (VBool false) t) as [x ->].
    left; eexists; reflexivity.
Qed.

(** By induction on the depth: a callback that is its own work callable
    never comes through, so no nested [_pause] emits. *)
Lemma guarded_work_body_ok (depth : nat) : block_ok depth.
Proof.
  induction depth as [|n IH]; intros t.
  - (* at the recursion limit the call raises *)
    assert (Hgoal : framed t (final_state (guarded_work_body (call 0) t)) /\
                    is_Some (raised (guarded_work_body (call 0) t))).
    { destruct (guarded_work_body_cases (call 0) t)
        as [[x ->]|(f & pos & kw & Hf & Hc & ->)].
      - apply handler_framed, framed_refl.
      - assert (Hcall : call 0 f pos kw t = Raised RecursionError t)
          by (cbn [call]; rewrite Hc; reflexivity).
        rewrite Hcall. apply handler_framed, framed_refl. }
    split; [apply Hgoal|]. intros _ _ _. apply Hgoal.
  - destruct (guarded_work_body_cases (call (S n)) t)
      as [[x ->]|(f & pos & kw & Hf & Hc & ->)].
    + destruct (handler_framed (S n) x t t (framed_refl t)) as [H1 H2].
      split; [exact H1|]. intros _ _ _. exact H2.
    + destruct (call_framed n f pos kw t IH Hf) as [Hfr Hraise].
      destruct (call (S n) f pos kw t) as [v t1|x t1]; cbn [final_state] in *.
      * split; [exact Hfr|]. intros f' Hf' Hrec.
        assert (f' = f) as -> by congruence.
        destruct (Hraise Hrec) as [y Hy]. discriminate Hy.
      * destruct (handler_framed (S n) x t t1 Hfr) as [H1 H2].
        split; [exact H1|]. intros _ _ _. exact H2.
Qed.

(** The guarded block, at the depth the callbacks run it. *)
Lemma guarded_work_framed (t : InterruptableTask) :
  framed t (final_state (guarded_work t)).
Proof. apply guarded_work_body_ok. Qed.

End CallFrames.

Section TaskEngine.
Import Logic.

Variables (name function args kwargs : pyval).

(** The object [InterruptableTask(name, function, args, kwargs)]: six
    attributes from [__init__], two from Fysom, and an empty transition
    map. *)
Lemma new_task_attrs :
  new_task name function args kwargs =
  mkTask
    (<["success" := VBool false]>
       (<["interruptable" := VBool false]>
          (<["args" := args]>
             (<["func" := function]>
                (<["name" := name]>
                   (<["lock" := VMutex]>
                      (<["current" := VStr "none"]>
                         (<["_final" := VNone]> ∅))))))))
    ∅ [] [].
Proof. reflexivity. Qed.

Lemma new_task_lookup (a : string) :
  a ∉ ["success"; "interruptable"; "args"; "func"; "name"; "lock";
       "current"; "_final"] ->
  attrs (new_task name function args kwargs) !! a = None.
Proof.
  intros Ha. rewrite new_task_attrs. cbn [attrs].
  rewrite !lookup_insert_ne; [apply lookup_empty|..];
    intros <-; apply Ha; repeat constructor.
Qed.

(** The table that [__init__] writes down in [_stateList] is the one of
    the specification: had Fysom been given it, the machine would start
    in [stopped] and know exactly the four transitions. *)
Lemma stateList_is_the_table (event state : string) :
  event ∈ ["run"; "pause"; "resume"; "finish"] ->
  state ∈ ["stopped"; "running"; "paused"] ->
  current Samples.configured_task = Some (VStr "stopped") /\
  destination (default ∅ (_map Samples.configured_task !! event)) state
  = Samples.transition_table event state.
Proof.
  intros He Hs. split; [reflexivity|].
  repeat (apply elem_of_cons in He as [->|He]);
    [..|by apply elem_of_nil in He];
    repeat (apply elem_of_cons in Hs as [->|Hs]);
    try (by apply elem_of_nil in Hs); reflexivity.
Qed.

(** C1. What the machine of a new task is: Fysom was initialised without
    [_stateList], so the state is Fysom's [none] (not [stopped]), the
    transition map is empty, no event can fire, and [run], [pause],
    [resume], [finish] are not even attributes of the task: firing one
    raises [AttributeError] and leaves the task as it was. *)
Theorem new_task_has_no_transitions :
  let t0 := new_task name function args kwargs in
  current t0 = Some (VStr "none") /\
  _map t0 = ∅ /\
  (forall event, can event t0 = Returned false t0) /\
  (forall event, event ∈ ["run"; "pause"; "resume"; "finish"] ->
     fire event t0 = Raised (AttributeError "InterruptableTask" event) t0).
Proof.
  intros t0. split; [reflexivity|]. split; [reflexivity|]. split.
  - intros event. unfold can. subst t0. rewrite new_task_attrs.
    cbn [_map]. by rewrite lookup_empty.
  - intros event He.
    repeat (apply elem_of_cons in He as [->|He]);
      [..|by apply elem_of_nil in He]; reflexivity.
Qed.

(** C2. The [run] callback on a new task, whatever its work callable
    does: [self.function] is not an attribute ([__init__] stored the
    callable as [func]), the handler catches that [AttributeError] and
    asks for [self.logMsg], which is not an attribute either, and this
    second [AttributeError] leaves the callback.  Nothing has been
    logged, and the [TaskResult] made at the start still has [success]
    at [None]. *)
Theorem run_callback_raises (e : pyval) :
  let t0 := new_task name function args kwargs in
  exists t',
    _run e t0 = Raised (AttributeError "InterruptableTask" "logMsg") t' /\
    log t' = [] /\
    attrs t' !! "result" = Some (VTaskResult VNone VNone) /\
    current t' = current t0.
Proof.
  intros t0. eexists. split; [reflexivity|]. split; [reflexivity|].
  split; reflexivity.
Qed.

(** [self.result.update(...)] never completes: [TaskResult] defines
    [updata], so the attribute lookup raises, and the task is as it was. *)
Lemma result_update_raises (data success : pyval) (t : InterruptableTask) :
  exists x, result_update data success t = Raised x t.
Proof. apply result_update_body_raises. Qed.

(** So the handler never completes either: whatever the task's attributes
    are, an exception leaves it, and the attributes are as they were. *)
Lemma on_exception_raises (e : exn) (t : InterruptableTask) :
  exists x t', on_exception e t = Raised x t' /\ attrs t' = attrs t.
Proof.
  destruct (on_exception_body_frame recursion_limit e t)
    as (x & t' & Hrun & Ha & _).
  by exists x, t'.
Qed.

(** When [function] is a plain function that raises, so does the block. *)
Lemma guarded_work_raises (t : InterruptableTask) (text : string) :
  attrs t !! "function" = Some (VFunc (Raises text)) ->
  is_Some (raised (guarded_work t)).
Proof.
  intros Hf.
  assert (Hlook : lookup_attr t "function" = Some (VFunc (Raises text)))
    by (unfold lookup_attr; by rewrite Hf).
  assert (Hh : forall x t1, is_Some (raised (on_exception x t1))).
  { intros x t1. destruct (on_exception_raises x t1) as (y & t' & -> & _).
    eexists; reflexivity. }
  unfold guarded_work.
  destruct (guarded_work_body_cases (call recursion_limit) t)
    as [[x ->]|(f & pos & kw & Hf' & _ & ->)]; [apply Hh|].
  assert (f = VFunc (Raises text)) as -> by congruence.
  cbn. apply Hh.
Qed.

(** Whatever the task's attributes are, [_run] leaves the [TaskResult] it
    made untouched ([success] is [None], never [False]); and when the
    [function] attribute is a plain function that raises, an exception
    leaves [_run]. *)
Lemma run_callback_on_any_task (e : pyval) (t : InterruptableTask) :
  attrs (final_state (_run e t)) !! "result" = Some (VTaskResult VNone VNone) /\
  (forall text, attrs t !! "function" = Some (VFunc (Raises text)) ->
     is_Some (raised (_run e t))).
Proof.
  unfold _run, _run_body, bind, setattr, modify.
  set (t1 := mkTask (<["result" := TaskResult_init]> (attrs t)) (_map t)
               (log t) (emitted t)).
  fold guarded_work.
  destruct (guarded_work_framed t1) as (_ & _ & _ & Hres).
  split.
  - assert (Hfresh : attrs t1 !! "result" = Some TaskResult_init)
      by (subst t1; cbn [attrs]; apply lookup_insert_eq).
    unfold TaskResult_init in *.
    destruct (guarded_work t1) as [u t2|x t2]; cbn [final_state] in *;
      destruct Hres as [Hres|Hres]; congruence.
  - intros text Hf.
    destruct (guarded_work_raises t1 text) as [x Hx].
    + subst t1. cbn [attrs]. by rewrite lookup_insert_ne.
    + destruct (guarded_work t1) as [u t2|y t2]; [discriminate Hx|].
      eexists; reflexivity.
Qed.

(** [makeInterruptable] on any task: what decides is the attribute
    [pausefunction] the task already has, not the argument. *)
Lemma makeInterruptable_tests_attribute (pausefunction resumefunction old : pyval)
    (t : InterruptableTask) :
  attrs t !! "pausefunction" = Some old ->
  makeInterruptable pausefunction resumefunction t =
  Returned tt
    (if callable old && callable resumefunction
     then mkTask
            (<["interruptable" := VBool true]>
               (<["resumefuncion" := resumefunction]>
                  (<["pausefunction" := pausefunction]> (attrs t))))
            (_map t) (log t) (emitted t)
     else t).
Proof.
  intros Hold. unfold makeInterruptable, bind, getattr, lookup_attr.
  rewrite Hold. destruct (callable old && callable resumefunction); reflexivity.
Qed.

(** [canPause] on any task whose [interruptable] is [False]: the answer
    is [False], and the machine is not consulted. *)
Lemma canPause_not_interruptable (t : InterruptableTask) :
  attrs t !! "interruptable" = Some (VBool false) ->
  canPause t = Returned (VBool false) t.
Proof.
  intros Hi. unfold canPause, bind, getattr, lookup_attr. by rewrite Hi.
Qed.

(** C7. [makeInterruptable] on a new task, whatever the two arguments
    are: the test reads [self.pausefunction], which no [__init__] has
    set, instead of the argument; the call raises [AttributeError] and
    the task stays not interruptable, so [canPause] answers [False]. *)
Theorem makeInterruptable_raises (pausefunction resumefunction : pyval) :
  let t0 := new_task name function args kwargs in
  makeInterruptable pausefunction resumefunction t0
  = Raised (AttributeError "InterruptableTask" "pausefunction") t0 /\
  attrs t0 !! "interruptable" = Some (VBool false) /\
  canPause t0 = Returned (VBool false) t0.
Proof. intros t0. split; [reflexivity|]. split; reflexivity. Qed.

End TaskEngine.

(** * Further properties of core/remote.py *)

Section RemoteRequests.
Import Models Remote.

(** A request to a peer that is there, whose table and whose caller's
    listing are there: the state it leaves. *)
Lemma getRemoteModule_runs (self : RemoteObjectManager)
    (host : option string) (port : option Z) (name : string)
    (n : net) (q : peer) (d : DictTableModel pyobj)
    (l : ListTableModel RemoteModule) :
  peers n !! (host, port) = Some q ->
  dicts (remote q) !! modules (serviceClass q) = Some d ->
  lists (local n) !! remoteModules self = Some l ->
  let o := default PyNone (storage d !! name) in
  getRemoteModule self host port name n =
  Returned o
    (mkNet
       (mkProcess (dicts (local n))
          (<[remoteModules self := append (mkRemoteModule (host, port) o name) l]>
             (lists (local n)))
          (log (local n)))
       (<[(host, port) :=
            mkPeer (serviceClass q)
              (mkProcess (dicts (remote q)) (lists (remote q))
                 ((log (remote q) ++ [LogEntry status "Client connected!"])
                  ++ match storage d !! name with
                     | Some _ => []
                     | None =>
                         [LogEntry error
                            "Client requested a module that is not shared."]
                     end))]>
          (peers n))).
Proof.
  intros Hq Hd Hl o.
  unfold getRemoteModule, RemoteModule_init, rpyc_connect, bind, on_peer,
    on_connect, locally, ret. simpl.
  rewrite Hq. simpl. rewrite lookup_insert_eq. simpl.
  erewrite exposed_getModule_runs; last exact Hd.
  subst o. destruct (storage d !! name) as [o|]; simpl;
    unfold read_list, write_list, modify; simpl; rewrite Hl; simpl;
    rewrite insert_insert_eq; [rewrite app_nil_r|]; reflexivity.
Qed.

(** X1. A client that asks a reachable server for a name the server's
    table holds gets the object held there; the handle appended to the
    client's listing carries it, and the server has logged the
    connection and nothing else. *)
Theorem getRemoteModule_shared (self : RemoteObjectManager)
    (host : option string) (port : option Z) (name : string)
    (n : net) (q : peer) (d : DictTableModel pyobj)
    (l : ListTableModel RemoteModule) (o : pyobj) :
  peers n !! (host, port) = Some q ->
  dicts (remote q) !! modules (serviceClass q) = Some d ->
  storage d !! name = Some o ->
  lists (local n) !! remoteModules self = Some l ->
  exists n',
    getRemoteModule self host port name n = Returned o n' /\
    lists (local n') !! remoteModules self
      = Some (append (mkRemoteModule (host, port) o name) l) /\
    (exists q', peers n' !! (host, port) = Some q' /\
       dicts (remote q') = dicts (remote q) /\
       log (remote q') =
       (log (remote q) ++ [LogEntry status "Client connected!"])%list).
Proof.
  intros Hq Hd Hname Hl.
  rewrite (getRemoteModule_runs _ _ _ _ _ _ _ _ Hq Hd Hl), Hname. simpl.
  eexists. split; [reflexivity|]. simpl. split; [by rewrite lookup_insert_eq|].
  eexists. split; [by rewrite lookup_insert_eq|]. simpl.
  split; [reflexivity|]. by rewrite app_nil_r.
Qed.

Lemma getRemoteModule_shared_witness :
  exists n',
    getRemoteModule Samples.manager0 (Some "host") (Some 1234) "ab"
      Samples.network0 = Returned (PyRef 7) n' /\
    lists (local n') !! remoteModules Samples.manager0
      = Some (mkList ["Remote Modules"]
                [mkRemoteModule (Some "host", Some 1234) (PyRef 7) "ab"]).
Proof.
  destruct (getRemoteModule_shared Samples.manager0
              (Some "host") (Some 1234) "ab" Samples.network0
              (mkPeer (makeRemoteService Samples.manager0) Samples.server_process)
              (mkDict ["Shared Modules"] {[ "ab" := PyRef 7 ]})
              (mkList ["Remote Modules"] []) (PyRef 7))
    as (n' & Hrun & Hlist & _);
    [vm_compute; reflexivity ..|].
  exists n'. split; [exact Hrun|exact Hlist].
Defined.

(** X2. The listing of remote modules records exactly the requests that
    came back: with nobody listening at the address the request raises
    [ConnectionRefusedError] and nothing at all has changed; whenever a
    request raises, the client's own process is as it was; and whenever it
    returns a proxy, one handle carrying that proxy has been appended. *)
Theorem getRemoteModule_listing (self : RemoteObjectManager)
    (host : option string) (port : option Z) (name : string)
    (n : net) (l : ListTableModel RemoteModule) :
  lists (local n) !! remoteModules self = Some l ->
  (peers n !! (host, port) = None ->
     getRemoteModule self host port name n = Raised ConnectionRefusedError n) /\
  (forall e n',
     getRemoteModule self host port name n = Raised e n' -> local n' = local n) /\
  (forall o n',
     getRemoteModule self host port name n = Returned o n' ->
     lists (local n') !! remoteModules self
     = Some (append (mkRemoteModule (host, port) o name) l)).
Proof.
  intros Hl.
  unfold getRemoteModule, RemoteModule_init, rpyc_connect, bind, on_peer,
    on_connect, locally, ret. simpl.
  destruct (peers n !! (host, port)) as [q|] eqn:Hq; simpl.
  - rewrite lookup_insert_eq. simpl.
    split; [done|].
    destruct (exposed_getModule (serviceClass q) name _) as [o r|e r]; simpl.
    + unfold read_list, write_list, modify. simpl. rewrite Hl. simpl.
      split; [intros e n' [=]|].
      intros o' n' [= <- <-]. simpl. by rewrite lookup_insert_eq.
    + split; [|intros o' n' [=]].
      intros e' n' [= <- <-]. reflexivity.
  - split; [done|]. split; [|intros o n' [=]].
    intros e n' [= <- <-]. reflexivity.
Qed.

Lemma getRemoteModule_listing_witness :
  getRemoteModule Samples.manager0 (Some "elsewhere") (Some 1) "ab"
    Samples.network0
  = Raised ConnectionRefusedError Samples.network0.
Proof.
  destruct (getRemoteModule_listing Samples.manager0 (Some "elsewhere") (Some 1)
              "ab" Samples.network0 (mkList ["Remote Modules"] []))
    as (Hnone & _); [vm_compute; reflexivity|].
  apply Hnone. vm_compute. reflexivity.
Defined.

(** X3. Nothing is reused between requests: asking the same server for
    the same name twice opens two connections (the server logs both) and
    appends two handles to the listing, in the order of the calls. *)
Theorem getRemoteModule_twice (self : RemoteObjectManager)
    (host : option string) (port : option Z) (name : string)
    (n : net) (q : peer) (d : DictTableModel pyobj)
    (l : ListTableModel RemoteModule) (o : pyobj) :
  peers n !! (host, port) = Some q ->
  dicts (remote q) !! modules (serviceClass q) = Some d ->
  storage d !! name = Some o ->
  lists (local n) !! remoteModules self = Some l ->
  exists n1 n2,
    getRemoteModule self host port name n = Returned o n1 /\
    getRemoteModule self host port name n1 = Returned o n2 /\
    list_storage <$> lists (local n2) !! remoteModules self
      = Some (list_storage l
              ++ [mkRemoteModule (host, port) o name;
                  mkRemoteModule (host, port) o name])%list /\
    (exists q2, peers n2 !! (host, port) = Some q2 /\
       log (remote q2) =
       (log (remote q)
        ++ [LogEntry status "Client connected!";
            LogEntry status "Client connected!"])%list).
Proof.
  intros Hq Hd Hname Hl.
  pose proof (getRemoteModule_runs self host port name n q d l Hq Hd Hl) as H1.
  rewrite Hname in H1. simpl in H1. rewrite app_nil_r in H1.
  eexists. eexists. split; [exact H1|].
  match type of H1 with _ = Returned _ ?s => set (n1 := s) in * end.
  assert (Hq1 : peers n1 !! (host, port)
                = Some (mkPeer (serviceClass q)
                          (mkProcess (dicts (remote q)) (lists (remote q))
                             (log (remote q)
                              ++ [LogEntry status "Client connected!"]))))
    by (subst n1; simpl; by rewrite lookup_insert_eq).
  assert (Hl1 : lists (local n1) !! remoteModules self
                = Some (append (mkRemoteModule (host, port) o name) l))
    by (subst n1; simpl; by rewrite lookup_insert_eq).
  pose proof (getRemoteModule_runs self host port name n1 _ d _ Hq1 Hd Hl1) as H2.
  rewrite Hname in H2. simpl in H2. rewrite app_nil_r in H2.
  split; [exact H2|]. simpl. split.
  - rewrite lookup_insert_eq. simpl. by rewrite <- app_assoc.
  - eexists. split; [by rewrite lookup_insert_eq|]. simpl.
    by rewrite <- app_assoc.
Qed.

Lemma getRemoteModule_twice_witness :
  exists n1 n2,
    getRemoteModule Samples.manager0 (Some "host") (Some 1234) "ab"
      Samples.network0 = Returned (PyRef 7) n1 /\
    getRemoteModule Samples.manager0 (Some "host") (Some 1234) "ab" n1
      = Returned (PyRef 7) n2 /\
    list_storage <$> lists (local n2) !! remoteModules Samples.manager0
      = Some [mkRemoteModule (Some "host", Some 1234) (PyRef 7) "ab";
              mkRemoteModule (Some "host", Some 1234) (PyRef 7) "ab"].
Proof.
  destruct (getRemoteModule_twice Samples.manager0
              (Some "host") (Some 1234) "ab" Samples.network0
              (mkPeer (makeRemoteService Samples.manager0) Samples.server_process)
              (mkDict ["Shared Modules"] {[ "ab" := PyRef 7 ]})
              (mkList ["Remote Modules"] []) (PyRef 7))
    as (n1 & n2 & H1 & H2 & Hlist & _);
    [vm_compute; reflexivity ..|].
  exists n1, n2. split; [exact H1|]. split; [exact H2|exact Hlist].
Defined.

End RemoteRequests.

Section UrlEdges.
Import Models Remote Url.

Lemma contains_remove_char (c : ascii) (s : string) :
  contains c (remove_char c s) = false.
Proof.
  unfold contains. apply negb_false_iff.
  induction s as [|a s IH]; [reflexivity|].
  simpl. destruct (Ascii.eqb a c) eqn:Ha; [exact IH|].
  simpl. by rewrite Ha, IH.
Qed.

(** [getRemoteModuleUrl] by the outcome of the parse. *)
Lemma getRemoteModuleUrl_by_parse (self : RemoteObjectManager)
    (url : string) (n : net) :
  getRemoteModuleUrl self url n =
  match urlparse url with
  | inl e => Raised e n
  | inr r =>
      match Url.port r with
      | inl e => Raised e n
      | inr p =>
          getRemoteModule self (Url.hostname r) p (remove_char "/" (path r)) n
      end
  end.
Proof.
  unfold getRemoteModuleUrl, bind, lift_sum.
  destruct (urlparse url) as [e|r]; [reflexivity|].
  unfold ret at 1. cbn beta iota.
  destruct (Url.port r) as [e|p]; reflexivity.
Qed.

(** X4. Whatever the URL is, [getRemoteModuleUrl] either raises the error
    of the parse (of the URL or of its port) before anything has been
    contacted or changed, or calls [getRemoteModule] with a name that
    contains no slash: a module shared under a name with a slash in it
    cannot be asked for by URL. *)
Theorem getRemoteModuleUrl_name_has_no_slash (self : RemoteObjectManager)
    (url : string) (n : net) :
  (exists e,
      getRemoteModuleUrl self url n = Raised e n /\
      (urlparse url = inl e \/
       exists r, urlparse url = inr r /\ Url.port r = inl e)) \/
  (exists r p,
      urlparse url = inr r /\ Url.port r = inr p /\
      getRemoteModuleUrl self url n
      = getRemoteModule self (Url.hostname r) p (remove_char "/" (path r)) n /\
      contains "/" (remove_char "/" (path r)) = false).
Proof.
  rewrite getRemoteModuleUrl_by_parse.
  destruct (urlparse url) as [e|r] eqn:Hparse.
  - left. exists e. split; [reflexivity|by left].
  - destruct (Url.port r) as [e|p] eqn:Hport.
    + left. exists e. split; [reflexivity|]. right. by exists r.
    + right. exists r, p. split; [reflexivity|]. split; [exact Hport|].
      split; [reflexivity|]. apply contains_remove_char.
Qed.

(** The components [urlparse] finds when the netloc is a bare host. *)
Lemma urlparse_without_port (sch host name : string) :
  sch <> EmptyString ->
  forall_chars is_scheme_char sch = true ->
  forall_chars Samples.is_host_char host = true ->
  forall_chars Samples.is_name_char name = true ->
  urlparse (MoreSamples.mk_url_noport sch host name) =
  inr (mkParseResult (lower sch) host (String "/" name)
         EmptyString EmptyString EmptyString).
Proof.
  intros Hsch_ne Hsch Hhost Hname.
  assert (Hfree : forall x, In x ["/"; "?"; "#"; ":"; "@"; "["; "]"]%char ->
            forall_chars (fun c => negb (Ascii.eqb c x)) host = true).
  { intros x Hx.
    eapply forall_chars_impl; [intros c; apply (host_char_not x c Hx)|exact Hhost]. }
  unfold urlparse, urlsplit, MoreSamples.mk_url_noport.
  change ("://" +:+ host +:+ "/" +:+ name)
    with (String ":" (String "/" (String "/" (host +:+ String "/" name)))).
  rewrite partition_app;
    last by (eapply forall_chars_impl; [apply scheme_char_not_colon|exact Hsch]).
  destruct sch as [|c0 s0]; [done|].
  rewrite Hsch. cbn [forall_chars is_digit andb].
  change (is_digit "/") with false. cbn [andb]. unfold split_netloc.
  rewrite break_app; [| |reflexivity]; last first.
  { exact (forall_chars_impl _ _ host host_char_not_netloc_end Hhost). }
  rewrite !contains_absent by (apply Hfree; simpl; tauto).
  cbn [andb orb negb].
  rewrite (partition_absent "#" (String "/" name))
    by (simpl; apply name_free_of; [exact Hname|simpl; tauto]).
  rewrite (partition_absent "?" (String "/" name))
    by (simpl; apply name_free_of; [exact Hname|simpl; tauto]).
  rewrite (contains_absent ";" (String "/" name))
    by (simpl; apply name_free_of; [exact Hname|simpl; tauto]).
  rewrite andb_false_r. reflexivity.
Qed.

(** X5. A URL [scheme://host/name] without a port is not refused: the
    call is the one to [getRemoteModule] with [None] as the port. *)
Theorem getRemoteModuleUrl_without_port (self : RemoteObjectManager)
    (sch host name : string) (n : net) :
  sch <> EmptyString ->
  forall_chars is_scheme_char sch = true ->
  host <> EmptyString ->
  forall_chars Samples.is_host_char host = true ->
  forall_chars Samples.is_name_char name = true ->
  getRemoteModuleUrl self (MoreSamples.mk_url_noport sch host name) n
  = getRemoteModule self (Some (lower host)) None (remove_char "/" name) n.
Proof.
  intros Hsch_ne Hsch Hhost_ne Hhost Hname.
  rewrite getRemoteModuleUrl_by_parse.
  rewrite (urlparse_without_port sch host name Hsch_ne Hsch Hhost Hname).
  cbn [path].
  assert (Hinfo : _hostinfo (mkParseResult (lower sch) host (String "/" name)
                               EmptyString EmptyString EmptyString)
                  = (host, None)).
  { unfold _hostinfo, rpartition. cbn [netloc].
    assert (Hfree : forall x, In x ["/"; "?"; "#"; ":"; "@"; "["; "]"]%char ->
              forall_chars (fun c => negb (Ascii.eqb c x)) host = true).
    { intros x Hx.
      eapply forall_chars_impl; [intros c; apply (host_char_not x c Hx)|exact Hhost]. }
    rewrite split_last_absent by (apply Hfree; simpl; tauto).
    rewrite (partition_absent "[" host) by (apply Hfree; simpl; tauto).
    rewrite (partition_absent ":" host) by (apply Hfree; simpl; tauto).
    reflexivity. }
  unfold Url.hostname, Url.port. rewrite Hinfo. cbn [fst snd].
  destruct host as [|h0 hs]; [done|].
  change (remove_char "/" (String "/" name)) with (remove_char "/" name).
  reflexivity.
Qed.

Lemma getRemoteModuleUrl_without_port_witness :
  getRemoteModuleUrl Samples.manager0
    (MoreSamples.mk_url_noport "rpyc" "LabPC" "odmr") Samples.network0
  = getRemoteModule Samples.manager0 (Some "labpc") None "odmr" Samples.network0.
Proof.
  apply (getRemoteModuleUrl_without_port Samples.manager0 "rpyc" "LabPC" "odmr"
           Samples.network0); [done|reflexivity|done|reflexivity|reflexivity].
Defined.

End UrlEdges.

Section RemoteManagers.
Import Models Remote.

(** The state [RemoteObjectManager.__init__] leaves. *)
Lemma RemoteObjectManager_init_runs (host : string) (p : process) :
  let r := Remote.fresh (lists p) in
  let s := Remote.fresh (dicts p) in
  RemoteObjectManager_init host p =
  Returned (mkManager host r s)
    (mkProcess (<[s := mkDict ["Shared Modules"] ∅]> (dicts p))
       (<[r := mkList ["Remote Modules"] []]> (lists p)) (log p)).
Proof. reflexivity. Qed.

Lemma fresh_not_in {V} (m : gmap nat V) : m !! Remote.fresh m = None.
Proof.
  unfold Remote.fresh. apply not_elem_of_dom. apply is_fresh.
Qed.

(** X6. Every manager has a registry of its own: of two managers made
    in one process, a module shared through the first is served by the
    service of the first and is not found by the service of the second,
    which logs the failed request. *)
Theorem managers_have_separate_registries (p0 : process)
    (host_a host_b n : string) (o : pyobj) :
  exists a p1 b p2 p3 p4,
    RemoteObjectManager_init host_a p0 = Returned a p1 /\
    RemoteObjectManager_init host_b p1 = Returned b p2 /\
    sharedModules a <> sharedModules b /\
    shareModule a n o p2 = Returned tt p3 /\
    exposed_getModule (makeRemoteService a) n p3 = Returned o p3 /\
    exposed_getModule (makeRemoteService b) n p3 = Returned PyNone p4 /\
    log p4 =
    (log p3 ++ [LogEntry error "Client requested a module that is not shared."])%list.
Proof.
  set (sa := Remote.fresh (dicts p0)).
  set (da := <[sa := mkDict ["Shared Modules"] (∅ : gmap string pyobj)]> (dicts p0)).
  set (sb := Remote.fresh da).
  assert (Hne : sa <> sb).
  { intros Heq. pose proof (fresh_not_in da) as Hfresh. fold sb in Hfresh.
    rewrite <- Heq in Hfresh. subst da. by rewrite lookup_insert_eq in Hfresh. }
  do 6 eexists.
  split; [apply RemoteObjectManager_init_runs|].
  split; [apply RemoteObjectManager_init_runs|].
  cbn [sharedModules dicts]. fold sa da sb.
  split; [exact Hne|].
  assert (Ha : (<[sb := mkDict ["Shared Modules"] (∅ : gmap string pyobj)]> da) !! sa
               = Some (mkDict ["Shared Modules"] ∅)).
  { rewrite lookup_insert_ne by done. subst da. apply lookup_insert_eq. }
  split.
  { apply shareModule_runs. cbn [sharedModules dicts]. exact Ha. }
  split.
  { erewrite exposed_getModule_runs;
      last by (cbn [makeRemoteService modules sharedModules dicts];
               apply lookup_insert_eq).
    by rewrite add_fresh_lookup by apply lookup_empty. }
  split.
  { erewrite exposed_getModule_runs; last first.
    { cbn [makeRemoteService modules sharedModules dicts].
      rewrite lookup_insert_ne by done. apply lookup_insert_eq. }
    cbn [storage]. rewrite lookup_empty. reflexivity. }
  reflexivity.
Qed.

(** X7. Sharing a name that was not shared and then sharing it again
    logs exactly one warning: the status line of the first call, then the
    "already shared" warning and the status line of the second. *)
Theorem sharing_twice_warns_once (self : RemoteObjectManager) (n : string)
    (o1 o2 : pyobj) (p : process) (d : DictTableModel pyobj) :
  dicts p !! sharedModules self = Some d ->
  storage d !! n = None ->
  exists p1 p2,
    shareModule self n o1 p = Returned tt p1 /\
    shareModule self n o2 p1 = Returned tt p2 /\
    log p2 =
    (log p
     ++ [LogEntry status ("Shared module " +:+ n +:+ ".");
         LogEntry warning ("Module " +:+ n +:+ " already shared.");
         LogEntry status ("Shared module " +:+ n +:+ ".")])%list.
Proof.
  intros Hd Hn.
  eexists. eexists. split; [by apply shareModule_runs|].
  rewrite Hn.
  destruct (decide (is_Some (@None pyobj))) as [[? ?]|_]; [done|].
  split.
  { apply shareModule_runs. cbn [dicts]. apply lookup_insert_eq. }
  cbn [log]. rewrite (add_fresh_lookup _ _ _ Hn).
  destruct (decide (is_Some (Some o1))) as [_|Hno]; [|by destruct Hno].
  by rewrite <- !app_assoc.
Qed.

Lemma sharing_twice_warns_once_witness :
  exists p1 p2,
    shareModule Samples.manager0 "odmr" (PyRef 1) Samples.process0
    = Returned tt p1 /\
    shareModule Samples.manager0 "odmr" (PyRef 2) p1 = Returned tt p2 /\
    log p2 =
    [LogEntry status "Shared module odmr.";
     LogEntry warning "Module odmr already shared.";
     LogEntry status "Shared module odmr."].
Proof.
  destruct (sharing_twice_warns_once Samples.manager0 "odmr" (PyRef 1) (PyRef 2)
              Samples.process0 (mkDict ["Shared Modules"] ∅))
    as (p1 & p2 & H1 & H2 & Hlog); [vm_compute; reflexivity ..|].
  exists p1, p2. split; [exact H1|]. split; [exact H2|exact Hlog].
Defined.

End RemoteManagers.

Section ServerLifeCycle.
Import Models Remote Serving.

(** The state [createServer] leaves. *)
Lemma createServer_runs (self : RemoteObjectManager) (port : Z) (h : host) :
  createServer self port h =
  Returned tt
    (mkHost
       (mkProcess (dicts (proc h)) (lists (proc h))
          (log (proc h)
           ++ [LogEntry status
                 ("Started module server at " +:+ hostname self
                  +:+ " on port " +:+ pretty port)]))
       (Some (mkRPyCServer (makeRemoteService self) port (Some "rpyc-server")))
       (map (fun t => if String.eqb t.1 "rpyc-server" then (t.1, true) else t)
          (threads h ++ [("rpyc-server", false)]))).
Proof. reflexivity. Qed.

(** X8. [stopServer] does nothing on a manager that never created a
    server.  After [createServer], which always succeeds and logs where
    the server was started, [stopServer] raises [AttributeError]: it
    calls [close] on the [RPyCServer] object, which has no such method,
    and the server stays where it is. *)
Theorem stopServer_before_and_after (self : RemoteObjectManager) (port : Z)
    (h : host) :
  (server h = None -> stopServer self h = Returned tt h) /\
  exists h1,
    createServer self port h = Returned tt h1 /\
    server h1
    = Some (mkRPyCServer (makeRemoteService self) port (Some "rpyc-server")) /\
    In ("rpyc-server", true) (threads h1) /\
    log (proc h1) =
    (log (proc h)
     ++ [LogEntry status
           ("Started module server at " +:+ hostname self
            +:+ " on port " +:+ pretty port)])%list /\
    stopServer self h1 = Raised (AttributeError "RPyCServer" "close") h1.
Proof.
  split.
  - intros Hnone. unfold stopServer, bind, gets. by rewrite Hnone.
  - eexists. split; [apply createServer_runs|].
    split; [reflexivity|]. split; [|split; reflexivity].
    cbn [threads]. rewrite map_app. apply in_or_app. right. left. reflexivity.
Qed.

(** X9. The server serves the manager's own registry, not a copy taken
    when it was created: a module shared after [createServer] is found
    by the service class the server was created with. *)
Theorem server_serves_later_shares (self : RemoteObjectManager) (port : Z)
    (h : host) (d : DictTableModel pyobj) (n : string) (o : pyobj) :
  dicts (proc h) !! sharedModules self = Some d ->
  storage d !! n = None ->
  exists h1 s p2,
    createServer self port h = Returned tt h1 /\
    server h1 = Some s /\
    shareModule self n o (proc h1) = Returned tt p2 /\
    exposed_getModule (serviceClass s) n p2 = Returned o p2.
Proof.
  intros Hd Hn.
  eexists. eexists. eexists. split; [apply createServer_runs|].
  split; [reflexivity|]. split.
  { apply shareModule_runs. cbn [proc dicts]. exact Hd. }
  erewrite exposed_getModule_runs;
    last by (cbn [serviceClass makeRemoteService modules dicts];
             apply lookup_insert_eq).
  by rewrite (add_fresh_lookup _ _ _ Hn).
Qed.

Lemma server_serves_later_shares_witness :
  exists h1 s p2,
    createServer Samples.manager0 1234 MoreSamples.host0 = Returned tt h1 /\
    server h1 = Some s /\
    shareModule Samples.manager0 "odmr" (PyRef 1) (proc h1) = Returned tt p2 /\
    exposed_getModule (serviceClass s) "odmr" p2 = Returned (PyRef 1) p2.
Proof.
  apply (server_serves_later_shares Samples.manager0 1234 MoreSamples.host0
           (mkDict ["Shared Modules"] ∅) "odmr" (PyRef 1));
    vm_compute; reflexivity.
Defined.

End ServerLifeCycle.

(** * Further properties of logic/generic_logic.py *)

Section TaskCallbacks.
Import Logic Frames.






(** The first hypothesis of X10 is needed: a task whose work callable is
    its own bound [makeInterruptable] is marked interruptable by
    [_run]. *)
Lemma run_can_mark_interruptable :
  attrs MoreSamples.self_marking_task !! "interruptable" = Some (VBool false) /\
  exists t',
    _run VNone MoreSamples.self_marking_task = Returned tt t' /\
    attrs t' !! "interruptable" = Some (VBool true).
Proof.
  split; [reflexivity|]. eexists. split; [vm_compute; reflexivity|].
  reflexivity.
Qed.

(** A callback that is its own work callable calls itself until the
    recursion limit is hit; every nested handler then fails in turn, and
    so does the outermost.  Nothing is emitted. *)
Lemma pause_calling_itself_raises :
  exists t',
    _pause VNone MoreSamples.self_calling_task
    = Raised (AttributeError "InterruptableTask" "logMsg") t' /\
    emitted t' = [].
Proof. eexists. split; [vm_compute; reflexivity|]. reflexivity. Qed.

(** Where the event cannot fire, [call] does to an event function what
    [event_fn] does. *)
Lemma event_function_that_cannot_fire (n : nat) (ev : string)
    (pos : list pyval) (kw : list (string * pyval)) (t : InterruptableTask) :
  returned (can ev t) <> Some true ->
  call (S n) (VEvent ev) pos kw t = event_fn ev t.
Proof.
  intros Hcan. cbn [call callable negb].
  unfold event_not_run, event_fn, bind, hasattr, gets.
  destruct (bool_decide _); [reflexivity|].
  pose proof (can_state ev t) as Hstate.
  destruct (can ev t) as [ok t1|x t1]; cbn in Hstate, Hcan; subst t1;
    [|reflexivity].
  destruct ok; [done|].
  unfold getattr. destruct (lookup_attr t "current") as [cur|]; reflexivity.
Qed.








(** X14. What [makeInterruptable] looks at is the [pausefunction] the
    task already has.  If that one is callable (and the resume argument
    is), the task is marked interruptable and takes the new pause
    function whatever it is, callable or not; the resume function goes
    to the attribute [resumefuncion], and [resumefunction] is as it was.
    If the old one is not callable, nothing changes. *)
Theorem makeInterruptable_checks_old_value (pf rf old : pyval)
    (t : InterruptableTask) :
  attrs t !! "pausefunction" = Some old ->
  (callable old = true -> callable rf = true ->
     exists t',
       makeInterruptable pf rf t = Returned tt t' /\
       attrs t' !! "interruptable" = Some (VBool true) /\
       attrs t' !! "pausefunction" = Some pf /\
       attrs t' !! "resumefuncion" = Some rf /\
       attrs t' !! "resumefunction" = attrs t !! "resumefunction") /\
  (callable old = false -> makeInterruptable pf rf t = Returned tt t).
Proof.
  intros Hold.
  rewrite (makeInterruptable_tests_attribute pf rf old t Hold). split.
  - intros -> ->. cbn [andb]. eexists. split; [reflexivity|]. cbn [attrs].
    split; [by rewrite lookup_insert_eq|].
    split; [by rewrite !lookup_insert_ne, lookup_insert_eq by done|].
    split; [by rewrite lookup_insert_ne, lookup_insert_eq by done|].
    by rewrite !lookup_insert_ne by done.
  - intros ->. reflexivity.
Qed.

Lemma makeInterruptable_checks_old_value_witness :
  let t := MoreSamples.pausable_task (VFunc Returns) in
  exists t',
    makeInterruptable VNone (VFunc Returns) t = Returned tt t' /\
    attrs t' !! "interruptable" = Some (VBool true) /\
    attrs t' !! "pausefunction" = Some VNone.
Proof.
  intros t.
  destruct (makeInterruptable_checks_old_value VNone (VFunc Returns)
              (VFunc Returns) t) as [Hmark _]; [reflexivity|].
  destruct Hmark as (t' & Hrun & Hi & Hp & _); [reflexivity ..|].
  exists t'. split; [exact Hrun|]. split; [exact Hi|exact Hp].
Defined.

(** X15. [canPause] answers [False] on every task the constructor has
    made, also after [makeInterruptable] has marked it (here on a task
    that was given a [pausefunction] attribute by hand): the machine has
    no [pause] event to ask about. *)
Theorem canPause_false_after_marking (name function args kwargs : pyval)
    (old pf rf : pyval) :
  let t := final_state
             (setattr "pausefunction" old (new_task name function args kwargs)) in
  let t' := final_state (makeInterruptable pf rf t) in
  canPause t' = Returned (VBool false) t' /\
  (callable old = true -> callable rf = true ->
   attrs t' !! "interruptable" = Some (VBool true)).
Proof.
  intros t t'. subst t'.
  rewrite (makeInterruptable_tests_attribute pf rf old t) by reflexivity.
  destruct (callable old && callable rf) eqn:Hc; cbn [final_state].
  - split; [reflexivity|]. intros _ _. reflexivity.
  - split; [reflexivity|]. intros Ho Hr. by rewrite Ho, Hr in Hc.
Qed.

End TaskCallbacks.

Section RegistryComposition.
Import Models Logic.

(** X16. Tasks with pairwise different names, none of them taken, all
    get registered when registered one after the other: every call
    returns 0, nothing is reported, each name then leads to its task,
    and every other name leads to what it led to before. *)
Theorem register_all_distinct (cls : GenericLogic_class) (self : GenericLogic)
    (tasks : list task_ref) (w : world) (d : DictTableModel task_ref) :
  tables w !! _tasks cls = Some d ->
  NoDup (task_name <$> tasks) ->
  (forall t, t ∈ tasks -> storage d !! task_name t = None) ->
  exists w' seen,
    MoreSamples.register_all cls self tasks w
    = Returned (replicate (length tasks) 0) w' /\
    tasks_seen_by cls self w' = Some seen /\
    messages w' = messages w /\
    (forall t, t ∈ tasks -> seen !! task_name t = Some t) /\
    (forall key, key ∉ (task_name <$> tasks) -> seen !! key = storage d !! key).
Proof.
  revert w d. induction tasks as [|task rest IH]; intros w d Hd Hnodup Hfree.
  - exists w, (storage d). cbn. split; [reflexivity|].
    split; [unfold tasks_seen_by; by rewrite Hd|]. split; [reflexivity|].
    split; [intros t Ht; by apply elem_of_nil in Ht|done].
  - cbn [fmap list_fmap] in Hnodup. apply NoDup_cons in Hnodup as [Hhead Hrest].
    cbn [MoreSamples.register_all]. unfold bind at 1.
    rewrite (registerTask_runs cls self task w d Hd).
    rewrite (Hfree task) by apply list_elem_of_here.
    set (d1 := mkDict (dict_headers d) (<[task_name task := task]> (storage d))).
    set (w1 := mkWorld (<[_tasks cls := d1]> (tables w)) (mutexes w) (messages w)).
    destruct (IH w1 d1) as (w' & seen & Hrun & Hseen & Hmsg & Hin & Hout).
    + subst w1. cbn [tables]. apply lookup_insert_eq.
    + exact Hrest.
    + intros t Ht. subst d1. cbn [storage].
      rewrite lookup_insert_ne; [apply Hfree; by apply list_elem_of_further|].
      intros Heq. apply Hhead. rewrite Heq. by apply list_elem_of_fmap_2.
    + exists w', seen. unfold bind. rewrite Hrun. cbn.
      split; [reflexivity|]. split; [exact Hseen|]. split; [exact Hmsg|]. split.
      * intros t [->|Ht]%elem_of_cons; [|by apply Hin].
        rewrite (Hout (task_name task) Hhead). subst d1. cbn [storage].
        apply lookup_insert_eq.
      * intros key Hkey. apply not_elem_of_cons in Hkey as [Hne Hkey].
        rewrite (Hout key Hkey). subst d1. cbn [storage].
        by rewrite lookup_insert_ne.
Qed.

Lemma register_all_distinct_witness :
  let scan := mkTaskRef 1 "scan" in
  let fit := mkTaskRef 2 "fit" in
  exists w' seen,
    MoreSamples.register_all Samples.logic_class Samples.logic_a [scan; fit]
      Samples.world0 = Returned [0; 0] w' /\
    tasks_seen_by Samples.logic_class Samples.logic_a w' = Some seen /\
    seen !! "scan" = Some scan /\ seen !! "fit" = Some fit.
Proof.
  intros scan fit.
  destruct (register_all_distinct Samples.logic_class Samples.logic_a
              [scan; fit] Samples.world0 (mkDict ["Name"] ∅))
    as (w' & seen & Hrun & Hseen & _ & Hin & _).
  - vm_compute. reflexivity.
  - cbn. apply NoDup_cons. split; [|apply NoDup_singleton].
    intros Hin. apply list_elem_of_singleton in Hin. discriminate Hin.
  - intros t _. apply lookup_empty.
  - exists w', seen. split; [exact Hrun|]. split; [exact Hseen|]. split.
    + apply (Hin scan). apply list_elem_of_here.
    + apply (Hin fit). apply list_elem_of_further, list_elem_of_here.
Defined.

End RegistryComposition.

Section ModuleThreads.
Import Logic LogicThreads.

(** X17. [getModuleThread] finds the thread kept under the module's own
    key: once a thread is kept for module [a], it is what
    [getModuleThread] returns for [a]; what is returned for a module of
    another name is not affected; and where no thread is kept for the
    module, the subscript fails with [KeyError] on the key
    [mod-logic-<name>]. *)
Theorem getModuleThread_by_name (_threads : gmap string thread_entry)
    (a b : GenericLogic) (entry : thread_entry) :
  _name a <> _name b ->
  let kept := <["mod-logic-" +:+ _name a := entry]> _threads in
  getModuleThread kept a = Found (thread entry) /\
  getModuleThread kept b = getModuleThread _threads b /\
  (_threads !! ("mod-logic-" +:+ _name b) = None ->
   getModuleThread kept b = KeyError ("mod-logic-" +:+ _name b)).
Proof.
  intros Hne kept.
  assert (Hkey : "mod-logic-" +:+ _name a <> "mod-logic-" +:+ _name b).
  { intros Heq. apply Hne. by apply (String.app_inj "mod-logic-"). }
  unfold getModuleThread. subst kept. rewrite lookup_insert_eq.
  rewrite lookup_insert_ne by exact Hkey.
  split; [reflexivity|]. split; [reflexivity|]. by intros ->.
Qed.

Lemma getModuleThread_by_name_witness :
  let kept :=
    <["mod-logic-odmrlogic" := mkEntry 5]> (∅ : gmap string thread_entry) in
  getModuleThread kept Samples.logic_a = Found 5%nat /\
  getModuleThread kept Samples.logic_b = KeyError "mod-logic-counterlogic".
Proof.
  intros kept.
  destruct (getModuleThread_by_name ∅ Samples.logic_a Samples.logic_b (mkEntry 5))
    as (Ha & _ & Hb); [done|].
  split; [exact Ha|]. apply Hb. reflexivity.
Defined.

End ModuleThreads.

(** * Properties of the tau vector of the pulsed measurement GUI *)

Section TauVector.
Import Pulsed.

Lemma range_length_of_product (start step count : Z) :
  step <> 0 ->
  range_length start (start + step * count) step = Z.max 0 count.
Proof.
  intros Hstep. unfold range_length.
  destruct (Z.ltb_spec 0 step) as [Hpos|Hneg].
  - destruct (Z.ltb_spec start (start + step * count)) as [Hlt|Hge].
    + assert (0 < count) by nia.
      replace (start + step * count - start - 1)
        with (step * (count - 1) + (step - 1)) by lia.
      rewrite (Z.mul_comm step (count - 1)), Z.div_add_l by lia.
      rewrite Z.div_small by lia. lia.
    + assert (count <= 0) by nia. lia.
  - assert (Hlt0 : step < 0) by lia.
    destruct (Z.ltb_spec (start + step * count) start) as [Hlt|Hge].
    + assert (0 < count) by nia.
      replace (start - (start + step * count) - 1)
        with ((count - 1) * (- step) + (- step - 1)) by lia.
      rewrite Z.div_add_l by lia.
      rewrite Z.div_small by lia. lia.
    + assert (count <= 0) by nia. lia.
Qed.

(** Every value between two signed 64-bit values is one. *)
Lemma fits_int64_between (a b z : Z) :
  fits_int64 a = true -> fits_int64 b = true ->
  (a <= z <= b \/ b <= z <= a) -> fits_int64 z = true.
Proof.
  unfold fits_int64. rewrite !andb_true_iff, !Z.leb_le, !Z.ltb_lt. lia.
Qed.

(** X18. The tau vector and the number of lasers that
    [seq_parameters_changed] hands to the logic agree.  For a non-zero
    increment (positive or negative), when the first value [tau_start]
    and the last value [tau_start + tau_incr * (laser_num - 1)] are signed
    64-bit integers, the array has exactly [laser_num] entries (none for
    a negative number), the k-th being [tau_start + k * tau_incr]; with a
    zero increment the expression raises [ValueError]. *)
Theorem tau_vector_entries (laser_num tau_start tau_incr : Z) :
  (tau_incr = 0 ->
   tau_vector laser_num tau_start tau_incr
   = inl (ValueError "range() arg 3 must not be zero")) /\
  (tau_incr <> 0 ->
   fits_int64 tau_start = true ->
   fits_int64 (tau_start + tau_incr * (laser_num - 1)) = true ->
   exists v,
     tau_vector laser_num tau_start tau_incr = inr (ExactArray v) /\
     length v = Z.to_nat laser_num /\
     forall k : nat, (k < Z.to_nat laser_num)%nat ->
       v !! k = Some (tau_start + Z.of_nat k * tau_incr)).
Proof.
  unfold tau_vector, range. split.
  - intros ->. reflexivity.
  - intros Hstep Hfirst Hlast.
    destruct (Z.eqb_spec tau_incr 0) as [|_]; [done|].
    rewrite (range_length_of_product _ _ _ Hstep).
    replace (Z.to_nat (Z.max 0 laser_num)) with (Z.to_nat laser_num) by lia.
    set (v := map _ _).
    assert (Hfits : forallb fits_int64 v = true).
    { apply forallb_forall. intros z Hz. subst v.
      apply in_map_iff in Hz as (i & <- & Hi). apply in_seq in Hi.
      apply (fits_int64_between tau_start
               (tau_start + tau_incr * (laser_num - 1))); [done..|].
      nia. }
    exists v. unfold np_array. rewrite Hfits. split; [reflexivity|]. split.
    + subst v. by rewrite length_map, length_seq.
    + intros k Hk. subst v. rewrite list_lookup_fmap.
      rewrite lookup_seq_lt by exact Hk. reflexivity.
Qed.

Lemma tau_vector_entries_witness :
  exists v,
    tau_vector 3 10 (-2) = inr (ExactArray v) /\
    length v = 3%nat /\ v !! 2%nat = Some 6.
Proof.
  destruct (tau_vector_entries 3 10 (-2)) as [_ H].
  destruct H as (v & Hv & Hl & Hk); [done..|].
  exists v. split; [exact Hv|]. split; [exact Hl|].
  apply (Hk 2%nat). cbn. lia.
Defined.

End TauVector.
